(** * Session, token and import plumbing of the code-review front end

    A shallow embedding of the browser-side modules of the repository
    (the axios instance with its two interceptors, the [AuthProvider]
    context, the GitHub callback route, the sign-up form, the imported
    repositories page and the connected accounts page), followed by the
    properties of the session/token lifecycle proved about them.

    Conventions.
    - A JavaScript string is a [string]; one character stands for one
      UTF-16 code unit, so [String.length] is the [.length] property.
      Where the code tells code units apart that a character cannot hold
      (the [trim] of the submission page), the string is the list of its
      code units.
    - Values that cross the network boundary are [Json] values; property
      access, truthiness, [||] and [String(v)] follow JavaScript.
    - [localStorage] is a finite map from keys to strings.
    - An [async] function is a computation in a state monad whose result
      is a settled promise (fulfilled or rejected); the replies of the
      backend are explicit arguments of the functions that await them. *)

From stdpp Require Import gmap strings list fin_maps pretty.
From Stdlib Require Import ZArith Lia.

Local Open Scope string_scope.
Local Open Scope Z_scope.
Local Set Warnings "-register-all".

(* ===================================================================== *)
(** ** JavaScript values *)
(* ===================================================================== *)

Module Js.

(** [s.startsWith(p)] *)
Fixpoint startsWith (p s : string) : bool :=
  match p, s with
  | EmptyString, _ => true
  | String a p', String b s' => Ascii.eqb a b && startsWith p' s'
  | String _ _, EmptyString => false
  end.

(** [s.includes(p)]: [p] occurs in [s] as a contiguous run of characters. *)
Fixpoint includes (s p : string) : bool :=
  startsWith p s ||
  match s with
  | EmptyString => false
  | String _ s' => includes s' p
  end.

Inductive Json : Type :=
  | JUndefined
  | JNull
  | JBool (b : bool)
  | JNum (n : Z)
  | JStr (s : string)
  | JArr (l : list Json)
  | JObj (fields : list (string * Json)).

(** Truthiness: [undefined], [null], [false], [0] and the empty string are
    falsy; every array and object is truthy. *)
Definition truthy (v : Json) : bool :=
  match v with
  | JUndefined | JNull => false
  | JBool b => b
  | JNum n => negb (n =? 0)
  | JStr EmptyString => false
  | JStr (String _ _) => true
  | JArr _ | JObj _ => true
  end.

(** [a || b] *)
Definition or (a b : Json) : Json := if truthy a then a else b.

Fixpoint assoc (k : string) (fields : list (string * Json)) : Json :=
  match fields with
  | [] => JUndefined
  | (k', v) :: rest => if String.eqb k k' then v else assoc k rest
  end.

(** [v?.k]: property read with optional chaining. On an object it is the
    property (or [undefined]); on [undefined] and [null] it is [undefined];
    the primitives and arrays met here have none of the properties read. *)
Definition field (k : string) (v : Json) : Json :=
  match v with
  | JObj fields => assoc k fields
  | _ => JUndefined
  end.

(** [v?.[0]]: the first element of an array, the first character of a
    string, the property [0] of an object. *)
Definition first (v : Json) : Json :=
  match v with
  | JArr (x :: _) => x
  | JStr (String a _) => JStr (String a EmptyString)
  | JObj fields => assoc "0" fields
  | _ => JUndefined
  end.

(** [String(v)], the conversion [localStorage.setItem] and template
    literals apply. Numbers are the integers. *)
Fixpoint toString (v : Json) : string :=
  match v with
  | JUndefined => "undefined"
  | JNull => "null"
  | JBool true => "true"
  | JBool false => "false"
  | JNum n => pretty n
  | JStr s => s
  | JArr l =>
      (fix join (l : list Json) : string :=
         match l with
         | [] => EmptyString
         | x :: rest =>
             let sx := match x with
                       | JUndefined | JNull => EmptyString
                       | _ => toString x
                       end in
             match rest with
             | [] => sx
             | _ :: _ => sx +:+ "," +:+ join rest
             end
         end) l
  | JObj _ => "[object Object]"
  end.

(** [typeof v === "string" ? v.length : undefined], as a number of code
    units; used to measure what is sent. *)
Definition strlen (v : Json) : option nat :=
  match v with
  | JStr s => Some (String.length s)
  | _ => None
  end.

End Js.

Import Js.

(* ===================================================================== *)
(** ** The browser the application runs in *)
(* ===================================================================== *)

Inductive ToastKind := ToastError | ToastSuccess | ToastInfo.

Inductive Method := GET | POST | DELETE.

(** An axios request configuration, as far as the application sets it. *)
Record Config := mkConfig {
  method : Method;
  url : option string;
  headers : gmap string string;
  body : Json
}.

Record Response := mkResponse {
  status : Z;
  data : Json
}.

(** What the transport hands back for one request. *)
Inductive Reply :=
  | NoResponse
  | Replied (r : Response).

(** The rejection value of a call: [error.response] and [error.config]. *)
Record AxiosError := mkError {
  response : option Response;
  config : option Config
}.

(** Everything outside React state that the modules read or write. *)
Record World := mkWorld {
  localStorage : gmap string string;
  toasts : list (ToastKind * Json);
  pathname : string;
  page_loads : nat;
  sent : list Config
}.

Definition with_localStorage (f : gmap string string → gmap string string)
    (w : World) : World :=
  mkWorld (f (localStorage w)) (toasts w) (pathname w) (page_loads w) (sent w).

(** What a promise is rejected with: the error of a call, or the
    [TypeError] of a property read on [undefined] or [null]. *)
Inductive Thrown :=
  | AxiosRejection (e : AxiosError)
  | TypeError.

(** [err.response] *)
Definition response_of (err : Thrown) : option Response :=
  match err with
  | AxiosRejection e => response e
  | TypeError => None
  end.

(** [err.response?.data] *)
Definition error_data (err : Thrown) : Json :=
  match response_of err with
  | Some r => data r
  | None => JUndefined
  end.

(** A settled promise. *)
Inductive Settled (A : Type) :=
  | Fulfilled (a : A)
  | Rejected (e : Thrown).
Arguments Fulfilled {A} a.
Arguments Rejected {A} e.

(** Computations over a state [S] that end in a settled promise. *)
Definition M (S A : Type) : Type := S → Settled A * S.

Definition ret {S A} (a : A) : M S A := fun s => (Fulfilled a, s).

Definition throw {S A} (e : Thrown) : M S A := fun s => (Rejected e, s).

Definition bind {S A B} (m : M S A) (k : A → M S B) : M S B :=
  fun s =>
    match m s with
    | (Fulfilled a, s') => k a s'
    | (Rejected e, s') => (Rejected e, s')
    end.

(** [try { m } catch (err) { h err }] *)
Definition try_catch {S A} (m : M S A) (h : Thrown → M S A) : M S A :=
  fun s =>
    match m s with
    | (Fulfilled a, s') => (Fulfilled a, s')
    | (Rejected e, s') => h e s'
    end.

(** [try { m } finally { f }], for an [f] that neither returns nor throws. *)
Definition finally {S A} (m : M S A) (f : S → S) : M S A :=
  fun s => let '(r, s') := m s in (r, f s').

Definition modify {S} (f : S → S) : M S unit := fun s => (Fulfilled tt, f s).

(** [v.k], the property read without optional chaining: it throws on
    [undefined] and [null]. *)
Definition read {S} (k : string) (v : Json) : M S Json :=
  match v with
  | JUndefined | JNull => throw TypeError
  | _ => ret (field k v)
  end.

Declare Scope js_scope.
Delimit Scope js_scope with js.
Notation "'let*' x ':=' m 'in' k" := (bind m (fun x => k))
  (at level 10, x name, m at level 100, k at level 200) : js_scope.
Notation "m ;;; k" := (bind m (fun _ => k))
  (at level 100, right associativity) : js_scope.

(** Browser primitives. *)
Definition getItem (k : string) (w : World) : option string :=
  localStorage w !! k.

Definition setItem (k : string) (v : Json) (w : World) : World :=
  with_localStorage (insert k (toString v)) w.

Definition removeItem (k : string) (w : World) : World :=
  with_localStorage (delete k) w.

Definition clear (w : World) : World :=
  with_localStorage (fun _ => ∅) w.

Definition toast (kind : ToastKind) (msg : Json) (w : World) : World :=
  mkWorld (localStorage w) (toasts w ++ [(kind, msg)]) (pathname w)
          (page_loads w) (sent w).

(** [navigate(path)]: a client-side route change, no document load. *)
Definition navigate (path : string) (w : World) : World :=
  mkWorld (localStorage w) (toasts w) path (page_loads w) (sent w).

(** [window.location.href = path] for a same-origin path: a document load,
    taken to its end, where the browser is at [path]. What still runs in
    the document on display before that is run with [Expiry.in_document]. *)
Definition set_href (path : string) (w : World) : World :=
  mkWorld (localStorage w) (toasts w) path (Datatypes.S (page_loads w)) (sent w).

Definition transmit (c : Config) (w : World) : World :=
  mkWorld (localStorage w) (toasts w) (pathname w) (page_loads w) (sent w ++ [c]).

(* ===================================================================== *)
(** ** services/api: the axios instance and its interceptors *)
(* ===================================================================== *)

Module Api.

(** List of endpoints that don't require authentication *)
Definition publicEndpoints : list string :=
  [ "/api/auth/login/";
    "/api/auth/registration/";
    "/api/auth/google/";
    "/accounts/github/login/" ].

(** [publicEndpoints.some((endpoint) => u?.includes(endpoint))] *)
Definition some_includes (u : option string) : bool :=
  existsb (fun endpoint =>
             match u with
             | Some s => includes s endpoint
             | None => false
             end) publicEndpoints.

(** The classification computed by the request interceptor. *)
Definition isPublicEndpoint (c : Config) : bool := some_includes (url c).

(** The classification computed by the response interceptor;
    [error.config?.url?.includes(endpoint)]. *)
Definition isAuthEndpoint (error : AxiosError) : bool :=
  some_includes (match config error with
                 | Some c => url c
                 | None => None
                 end).

(** [api.interceptors.request.use((config) => ...)] *)
Definition request_interceptor (w : World) (c : Config) : Config :=
  if negb (isPublicEndpoint c) then
    match getItem "access" w with
    | Some (String a t) =>
        mkConfig (method c) (url c)
                 (<["Authorization" := "Bearer " +:+ String a t]> (headers c))
                 (body c)
    | Some EmptyString | None => c
    end
  else c.

(** The rejection handler of [api.interceptors.response.use]. *)
Definition response_rejected {A} (error : AxiosError) : M World A :=
  fun w =>
    let w1 :=
      match response error with
      | Some r =>
          if status r =? 401 then
            if negb (isAuthEndpoint error) then
              let w2 := removeItem "refresh" (removeItem "access" w) in
              let w3 := toast ToastError
                          (JStr "Your session has expired. Please login again.") w2 in
              if negb (String.eqb (pathname w3) "/login")
              then set_href "/login" w3
              else w3
            else w
          else w
      | None => w
      end in
    (Rejected (AxiosRejection error), w1).

(** The fulfilment handler: [(response) => response]. *)
Definition response_fulfilled (r : Response) : M World Response := ret r.

(** axios' default [validateStatus]. *)
Definition validateStatus (st : Z) : bool := (200 <=? st) && (st <? 300).

(** One call through the instance: request interceptor, transport,
    response interceptors. *)
Definition request (c : Config) (reply : Reply) : M World Response :=
  fun w =>
    let c' := request_interceptor w c in
    let w' := transmit c' w in
    match reply with
    | Replied r =>
        if validateStatus (status r)
        then response_fulfilled r w'
        else response_rejected (mkError (Some r) (Some c')) w'
    | NoResponse => response_rejected (mkError None (Some c')) w'
    end.

(** The response a call is fulfilled with, if it is. *)
Definition accepted (reply : Reply) : option Response :=
  match reply with
  | Replied r => if validateStatus (status r) then Some r else None
  | NoResponse => None
  end.

(** [error.response] of the rejection a reply leads to. *)
Definition reply_response (reply : Reply) : option Response :=
  match reply with
  | Replied r => Some r
  | NoResponse => None
  end.

Definition get (u : string) (reply : Reply) : M World Response :=
  request (mkConfig GET (Some u) ∅ JUndefined) reply.

Definition post (u : string) (payload : Json) (reply : Reply) : M World Response :=
  request (mkConfig POST (Some u) ∅ payload) reply.

Definition delete (u : string) (reply : Reply) : M World Response :=
  request (mkConfig DELETE (Some u) ∅ JUndefined) reply.

End Api.

(* ===================================================================== *)
(** ** Lenses: a component's state contains the state of what it uses *)
(* ===================================================================== *)

Record Lens (S T : Type) := mkLens {
  view : S → T;
  update : T → S → S
}.
Arguments view {S T} _ _.
Arguments update {S T} _ _ _.

(** Run a computation of the inner state inside the outer one. *)
Definition zoom {S T A} (l : Lens S T) (m : M T A) : M S A :=
  fun s => let '(r, t') := m (view l s) in (r, update l t' s).

(** Apply a state change of the inner state inside the outer one. *)
Definition over {S T} (l : Lens S T) (f : T → T) (s : S) : S :=
  update l (f (view l s)) s.

Local Open Scope js_scope.

(* ===================================================================== *)
(** ** context/AuthContext: the auth provider *)
(* ===================================================================== *)

Module AuthContext.

(** The provider's state: the ambient browser state and the [user] state
    variable, which is [true] or [null] ([false] stands for [null]). *)
Record State := mkState {
  world : World;
  user : bool
}.

Definition worldL : Lens State World :=
  mkLens State World world (fun w s => mkState w (user s)).

Definition setUser (u : bool) (s : State) : State := mkState (world s) u.

(** [localStorage.getItem("access") ? true : null] *)
Definition access_flag (w : World) : bool :=
  match getItem "access" w with
  | Some (String _ _) => true
  | Some EmptyString | None => false
  end.

(** The [useEffect] that runs on mount. *)
Definition checkAuth (s : State) : State := setUser (access_flag (world s)) s.

(** The provider once mounted in a browser whose state is [w]:
    [useState] initialiser, then the mount effect. *)
Definition mount (w : World) : State := checkAuth (mkState w (access_flag w)).

Definition login (email password : Json) (reply : Reply) : M State unit :=
  let* res := zoom worldL
          (Api.post "/api/auth/login/"
             (JObj [("email", email); ("password", password)]) reply) in
  let* access := read "access" (data res) in
  modify (over worldL (setItem "access" access)) ;;;
  let* refresh := read "refresh" (data res) in
  modify (over worldL (setItem "refresh" refresh)) ;;;
  modify (setUser true).

Definition loginWithGoogle (accessToken : Json) (reply : Reply) : M State unit :=
  let* res := zoom worldL
          (Api.post "/api/auth/google/"
             (JObj [("access_token", accessToken)]) reply) in
  let* access := read "access" (data res) in
  modify (over worldL (setItem "access" access)) ;;;
  let* refresh := read "refresh" (data res) in
  modify (over worldL (setItem "refresh" refresh)) ;;;
  modify (setUser true).

Definition signup (email password1 password2 : Json) (reply : Reply)
    : M State unit :=
  let* res := zoom worldL
          (Api.post "/api/auth/registration/"
             (JObj [("email", email); ("password1", password1);
                    ("password2", password2)]) reply) in
  let* access := read "access" (data res) in
  modify (over worldL (setItem "access" access)) ;;;
  let* refresh := read "refresh" (data res) in
  modify (over worldL (setItem "refresh" refresh)) ;;;
  modify (setUser true).

Definition logout (s : State) : State :=
  setUser false (over worldL clear s).

(** [isAuthenticated()]: what the routes read from the context. *)
Definition isAuthenticated (s : State) : bool := user s.

(** The credential pair of [res] has been installed over [before]. *)
Definition installed (res : Response) (before after : State) : Prop :=
  localStorage (world after)
    = <["refresh" := toString (field "refresh" (data res))]>
        (<["access" := toString (field "access" (data res))]>
           (localStorage (world before))) ∧
  isAuthenticated after = true.

(** Storage and the flag are what they were. *)
Definition unchanged (before after : State) : Prop :=
  localStorage (world after) = localStorage (world before) ∧
  isAuthenticated after = isAuthenticated before.

(** The response an exchange succeeds with: one the call is fulfilled
    with and whose body the pair can be read from. *)
Definition grants (reply : Reply) : option Response :=
  match Api.accepted reply with
  | Some r =>
      match data r with
      | JUndefined | JNull => None
      | _ => Some r
      end
  | None => None
  end.

(** What an exchange that does not succeed is rejected with: the error of
    the call, or the [TypeError] of reading the pair from an absent body. *)
Definition refusal (c : Config) (reply : Reply) : Thrown :=
  match Api.accepted reply with
  | Some _ => TypeError
  | None => AxiosRejection (mkError (Api.reply_response reply) (Some c))
  end.

(** How an exchange that was answered with [reply] has settled: fulfilled
    with the pair installed, or rejected with the store as it was. *)
Definition settles (reply : Reply) (before : State)
    (out : Settled unit * State) : Prop :=
  match grants reply with
  | Some r => fst out = Fulfilled tt ∧ installed r before (snd out)
  | None => (∃ e, fst out = Rejected e) ∧ unchanged before (snd out)
  end.

(** The body [login], [loginWithGoogle] and [signup] have in common: one
    POST, then the pair is stored and the flag set. *)
Definition exchange (u : string) (payload : Json) (reply : Reply)
    : M State unit :=
  let* res := zoom worldL (Api.post u payload reply) in
  let* access := read "access" (data res) in
  modify (over worldL (setItem "access" access)) ;;;
  let* refresh := read "refresh" (data res) in
  modify (over worldL (setItem "refresh" refresh)) ;;;
  modify (setUser true).


(** The operations the provider offers, with the backend's reply to each. *)
Inductive Op :=
  | OpLogin (email password : Json) (reply : Reply)
  | OpLoginWithGoogle (accessToken : Json) (reply : Reply)
  | OpSignup (email password1 password2 : Json) (reply : Reply)
  | OpLogout.

Definition run (o : Op) (s : State) : State :=
  match o with
  | OpLogin e p r => snd (login e p r s)
  | OpLoginWithGoogle t r => snd (loginWithGoogle t r s)
  | OpSignup e p1 p2 r => snd (signup e p1 p2 r s)
  | OpLogout => logout s
  end.

End AuthContext.

(* ===================================================================== *)
(** ** App: the GitHub OAuth callback route *)
(* ===================================================================== *)

Module App.

(** The effect of [GitHubCallback]. [access], [refresh] and [fromConnect]
    are [searchParams.get(...)] ([None] for [null]); [href] is
    [window.location.href]. *)
Definition GitHubCallback (access refresh fromConnect : option string)
    (href : string) (w : World) : World :=
  match access, refresh with
  | Some (String a ta), Some (String r tr) =>
      let w1 := setItem "access" (JStr (String a ta)) w in
      let w2 := setItem "refresh" (JStr (String r tr)) w1 in
      match fromConnect with
      | Some "true" => navigate "/github" w2
      | _ => navigate "/" w2
      end
  | _, _ =>
      let isConnectFlow := includes href "process=connect" in
      if isConnectFlow then navigate "/github" w else navigate "/login" w
  end.

End App.

(* ===================================================================== *)
(** ** pages/SignUp *)
(* ===================================================================== *)

Module SignUp.

Record State := mkState {
  auth : AuthContext.State;
  loading : bool
}.

Definition authL : Lens State AuthContext.State :=
  mkLens State AuthContext.State auth (fun a s => mkState a (loading s)).

Definition worldL : Lens State World :=
  mkLens State World
    (fun s => AuthContext.world (auth s))
    (fun w s => mkState (update AuthContext.worldL w (auth s)) (loading s)).

Definition setLoading (b : bool) (s : State) : State := mkState (auth s) b.

Definition errorMessage (err : Thrown) : Json :=
  let d := error_data err in
  Js.or (first (field "email" d))
    (Js.or (first (field "password1" d))
       (Js.or (first (field "non_field_errors" d))
          (Js.or (field "error" d)
             (JStr "Signup failed. Please try again.")))).

(** [handleSubmit], with the form fields [email], [password1], [password2]
    as they stand at submission and the backend's reply to the registration
    request, should one be sent. *)
Definition handleSubmit (email password1 password2 : string) (reply : Reply)
    : M State unit :=
  if negb (String.eqb password1 password2) then
    modify (over worldL (toast ToastError (JStr "Passwords do not match")))
  else if (String.length password1 <? 8)%nat then
    modify (over worldL
              (toast ToastError
                 (JStr "Password must be at least 8 characters long")))
  else
    finally
      (try_catch
         (modify (setLoading true) ;;;
          modify (over worldL (removeItem "access")) ;;;
          modify (over worldL (removeItem "refresh")) ;;;
          zoom authL
            (AuthContext.signup (JStr email) (JStr password1) (JStr password2)
               reply) ;;;
          modify (over worldL
                    (toast ToastSuccess
                       (JStr "Account created successfully! Welcome!"))) ;;;
          modify (over worldL (navigate "/")))
         (fun err => modify (over worldL (toast ToastError (errorMessage err)))))
      (setLoading false).

(** [onSuccess] of the Google button. *)
Definition handleGoogleLogin (access_token : Json) (reply : Reply)
    : M State unit :=
  finally
    (try_catch
       (modify (setLoading true) ;;;
        zoom authL (AuthContext.loginWithGoogle access_token reply) ;;;
        modify (over worldL
                  (toast ToastSuccess
                     (JStr "Account created successfully! Welcome!"))) ;;;
        modify (over worldL (navigate "/")))
       (fun err =>
          modify (over worldL
                    (toast ToastError
                       (JStr "Google signup failed. Please try again.")))))
    (setLoading false).

(** The registration request of a submission. *)
Definition registration (email password1 password2 : string) : Config :=
  mkConfig POST (Some "/api/auth/registration/") ∅
    (JObj [("email", JStr email); ("password1", JStr password1);
           ("password2", JStr password2)]).

End SignUp.

(* ===================================================================== *)
(** ** The session, as the whole application drives it *)
(* ===================================================================== *)

Module Session.



(** The document load that ends on the callback route, where the OAuth
    redirect arrives: the provider's [useState] initialiser reads storage
    during the first render, then the effects run, the route's before the
    provider's, which is its ancestor. *)
Definition load_callback (access refresh fromConnect : option string)
    (href : string) (w : World) : AuthContext.State :=
  AuthContext.checkAuth
    (AuthContext.mkState
       (App.GitHubCallback access refresh fromConnect href w)
       (AuthContext.access_flag w)).

(** Everything in the sources that writes the stored pair or the flag, and
    what moves the browser between them. *)
Inductive Step :=
  | Load
  | LoadCallback (access refresh fromConnect : option string) (href : string)
  | Operation (o : AuthContext.Op)
  | Call (c : Config) (reply : Reply)
  | Submit (email password1 password2 : string) (reply : Reply)
  | Navigate (path : string)
  | Notice (kind : ToastKind) (msg : Json).

Definition step (e : Step) (s : AuthContext.State) : AuthContext.State :=
  match e with
  | Load => AuthContext.mount (AuthContext.world s)
  | LoadCallback a r f h => load_callback a r f h (AuthContext.world s)
  | Operation o => AuthContext.run o s
  | Call c reply =>
      over AuthContext.worldL (fun w => snd (Api.request c reply w)) s
  | Submit em pw1 pw2 reply =>
      SignUp.auth
        (snd (SignUp.handleSubmit em pw1 pw2 reply (SignUp.mkState s false)))
  | Navigate path => over AuthContext.worldL (navigate path) s
  | Notice kind msg => over AuthContext.worldL (toast kind msg) s
  end.




(** The steps one after another. *)
Definition run (es : list Step) (s : AuthContext.State) : AuthContext.State :=
  foldl (fun s e => step e s) s es.

End Session.

(* ===================================================================== *)
(** ** pages/ImportedRepos *)
(* ===================================================================== *)

Module ImportedRepos.

Record State := mkState {
  world : World;
  repositories : Json;
  loading : bool;
  syncing : gmap string bool
}.

Definition worldL : Lens State World :=
  mkLens State World world
    (fun w s => mkState w (repositories s) (loading s) (syncing s)).

Definition setRepositories (r : Json) (s : State) : State :=
  mkState (world s) r (loading s) (syncing s).

Definition setLoading (b : bool) (s : State) : State :=
  mkState (world s) (repositories s) b (syncing s).

Definition setSyncing (m : gmap string bool) (s : State) : State :=
  mkState (world s) (repositories s) (loading s) m.

Definition fetchImportedRepos (reply : Reply) : M State unit :=
  finally
    (try_catch
       (modify (setLoading true) ;;;
        let* res := zoom worldL (Api.get "/api/repositories/" reply) in
        let* results := read "results" (data res) in
        modify (setRepositories (Js.or results (data res))))
       (fun err =>
          modify (over worldL
                    (toast ToastError
                       (JStr "Failed to load imported repositories")))))
    (setLoading false).

(** [handleSync]. The spread [{ ...syncing, [repoId]: b }] reads the
    [syncing] of the render the handler was created in, which is the state
    at the call. The list refresh is started without being awaited; it
    never rejects, and is run here where it is started. *)
Definition handleSync (repoId : Json) (replySync replyList : Reply)
    : M State unit :=
  fun s0 =>
    let captured := syncing s0 in
    finally
      (try_catch
         (modify (setSyncing (<[toString repoId := true]> captured)) ;;;
          let* res := zoom worldL
                        (Api.post
                           ("/api/repositories/" +:+ toString repoId +:+ "/sync/")
                           JUndefined replySync) in
          let* message := read "message" (data res) in
          modify (over worldL
                    (toast ToastSuccess
                       (Js.or message
                          (JStr "Repository synced successfully")))) ;;;
          fetchImportedRepos replyList)
         (fun err =>
            let errorMsg :=
              Js.or (field "error" (error_data err))
                (JStr "Failed to sync repository") in
            modify (over worldL (toast ToastError errorMsg))))
      (setSyncing (<[toString repoId := false]> captured))
      s0.

(** [handleDelete]; [confirmed] is the answer [window.confirm] returns.
    As in [handleSync], the list refresh is run where it is started. *)
Definition handleDelete (repoId : Json) (confirmed : bool)
    (replyDelete replyList : Reply) : M State unit :=
  if negb confirmed then ret tt
  else
    try_catch
      (zoom worldL
         (Api.delete ("/api/repositories/" +:+ toString repoId +:+ "/")
            replyDelete) ;;;
       modify (over worldL
                 (toast ToastSuccess (JStr "Repository removed successfully"))) ;;;
       fetchImportedRepos replyList)
      (fun err =>
         modify (over worldL
                   (toast ToastError (JStr "Failed to remove repository")))).

Definition getStatusColor (st : Json) : string :=
  match st with
  | JStr "success" => "bg-green-100 text-green-800"
  | JStr "failed" => "bg-red-100 text-red-800"
  | JStr "syncing" => "bg-blue-100 text-blue-800"
  | JStr "pending" => "bg-yellow-100 text-yellow-800"
  | _ => "bg-gray-100 text-gray-800"
  end.

(** The body a fulfilled call carries, when properties can be read off it. *)
Definition readable (reply : Reply) : option Json :=
  match Api.accepted reply with
  | Some r =>
      match data r with
      | JUndefined | JNull => None
      | d => Some d
      end
  | None => None
  end.

(** The list a reply to the listing request puts on the page, if any. *)
Definition listing (reply : Reply) : option Json :=
  match readable reply with
  | Some d => Some (Js.or (field "results" d) d)
  | None => None
  end.


End ImportedRepos.

(* ===================================================================== *)
(** ** The backend's repositories, and a removal from end to end *)
(* ===================================================================== *)

Module Backend.

(** Modelled from the spec: the backend's store of imported repositories,
    each record under the path of its resource. The backend is not among
    the sources; the pages only send it requests and show what it returns. *)
Definition Store := gmap string Json.

(** Modelled from the spec: [deleteRepository(id)], a hard delete. The
    record is removed from the store, not marked. *)
Definition deleteRepository (resource : string) (b : Store) : Store :=
  delete resource b.

(** Modelled from the spec: the backend and one request that was answered
    with [reply]. A DELETE of a resource answered with a success status has
    been carried out. An operation that fails is abandoned and mutates
    nothing (sections 7 and 8), and a request without a response stands for
    one that did not reach the backend. Requests of the other methods
    remove nothing. *)
Definition serve (c : Config) (reply : Reply) (b : Store) : Store :=
  match method c, url c, Api.accepted reply with
  | DELETE, Some u, Some _ => deleteRepository u b
  | _, _, _ => b
  end.

(** The requests served in the order they were sent. *)
Definition serve_all (calls : list (Config * Reply)) (b : Store) : Store :=
  foldl (fun b cr => serve (fst cr) (snd cr) b) b calls.

End Backend.

Module Removal.

(** The page together with the backend it talks to. *)
Record System := mkSystem {
  page : ImportedRepos.State;
  store : Backend.Store
}.

(** What a handler put on the wire: the requests sent beyond those that
    had been sent before it ran. *)
Definition new_requests (before after : World) : list Config :=
  drop (length (sent before)) (sent after).

(** The resource of repository [repoId]. *)
Definition resource (repoId : Json) : string :=
  "/api/repositories/" +:+ toString repoId +:+ "/".

(** A removal from end to end: [handleDelete] on the page, and the backend
    serving what the handler sent, the first request answered with
    [replyDelete] and the second with [replyList]. *)
Definition deleteRepository (repoId : Json) (confirmed : bool)
    (replyDelete replyList : Reply) (sys : System) : System :=
  let page' := snd (ImportedRepos.handleDelete repoId confirmed replyDelete
                      replyList (page sys)) in
  mkSystem page'
    (Backend.serve_all
       (zip (new_requests (ImportedRepos.world (page sys))
               (ImportedRepos.world page'))
            [replyDelete; replyList])
       (store sys)).

End Removal.

(* ===================================================================== *)
(** ** pages/ConnectedAccounts *)
(* ===================================================================== *)

Module ConnectedAccounts.

Record State := mkState {
  world : World;
  accounts : Json;
  loading : bool;
  editingLabel : option string;
  labelValue : Json
}.

Definition worldL : Lens State World :=
  mkLens State World world
    (fun w s => mkState w (accounts s) (loading s) (editingLabel s) (labelValue s)).

Definition setAccounts (a : Json) (s : State) : State :=
  mkState (world s) a (loading s) (editingLabel s) (labelValue s).

Definition setLoading (b : bool) (s : State) : State :=
  mkState (world s) (accounts s) b (editingLabel s) (labelValue s).

Definition setEditingLabel (e : option string) (s : State) : State :=
  mkState (world s) (accounts s) (loading s) e (labelValue s).

Definition setLabelValue (v : Json) (s : State) : State :=
  mkState (world s) (accounts s) (loading s) (editingLabel s) v.

Definition fetchConnectedAccounts (reply : Reply) : M State unit :=
  finally
    (try_catch
       (modify (setLoading true) ;;;
        let* res := zoom worldL
                      (Api.get "/api/auth/connected-accounts/" reply) in
        modify (setAccounts (data res)))
       (fun err =>
          modify (over worldL
                    (toast ToastError (JStr "Failed to load connected accounts")))))
    (setLoading false).

Definition startEditingLabel (provider uid currentLabel : Json) (s : State)
    : State :=
  setLabelValue (Js.or currentLabel (JStr EmptyString))
    (setEditingLabel (Some (toString provider +:+ "-" +:+ toString uid)) s).

Definition saveLabel (provider uid : Json) (replySave replyList : Reply)
    : M State unit :=
  fun s0 =>
    try_catch
      (zoom worldL
         (Api.post "/api/auth/update-account-label/"
            (JObj [("provider", provider); ("uid", uid);
                   ("label", labelValue s0)])
            replySave) ;;;
       modify (over worldL (toast ToastSuccess (JStr "Label updated"))) ;;;
       modify (setEditingLabel None) ;;;
       fetchConnectedAccounts replyList)
      (fun err =>
         modify (over worldL (toast ToastError (JStr "Failed to update label"))))
      s0.

Definition cancelEditing (s : State) : State :=
  setLabelValue (JStr EmptyString) (setEditingLabel None s).

(** [maxLength={100}] on the label input. *)
Definition maxLength : nat := 100.

(** [onChange={(e) => setLabelValue(e.target.value)}] *)
Definition onChange (value : string) (s : State) : State :=
  setLabelValue (JStr value) s.

(** What happens on the page as far as the label is concerned. *)
Inductive Event :=
  | StartEditing (provider uid currentLabel : Json)
  | Change (value : string)
  | Cancel
  | Save (provider uid : Json) (replySave replyList : Reply)
  | Fetch (reply : Reply).

Definition handle (e : Event) (s : State) : State :=
  match e with
  | StartEditing p u l => startEditingLabel p u l s
  | Change v => onChange v s
  | Cancel => cancelEditing s
  | Save p u r1 r2 => snd (saveLabel p u r1 r2 s)
  | Fetch r => snd (fetchConnectedAccounts r s)
  end.

Definition handle_all (es : list Event) (s : State) : State :=
  foldl (fun s e => handle e s) s es.

(** A string of at most [maxLength] code units. *)
Definition short (v : Json) : Prop :=
  ∃ t, v = JStr t ∧ (String.length t ≤ maxLength)%nat.

(** The label an edit starts from is absent or a string within the limit. *)
Definition short_or_absent (v : Json) : Prop :=
  v = JUndefined ∨ v = JNull ∨ short v.

(** The input element fires [Change] only with values its [maxLength]
    admits; an edit starts from a label within the limit. *)
Definition within_limit (e : Event) : Prop :=
  match e with
  | StartEditing _ _ l => short_or_absent l
  | Change v => (String.length v ≤ maxLength)%nat
  | _ => True
  end.

(** The label-update requests among those sent, by the label they carry. *)
Definition labels_sent (w : World) : list Json :=
  omap (fun c =>
          if decide (url c = Some "/api/auth/update-account-label/")
          then Some (field "label" (body c)) else None) (sent w).

Definition initial (w : World) : State :=
  mkState w (JObj []) false None (JStr EmptyString).

(** [handleUnlink]; [confirmed] is the answer [window.confirm] returns. *)
Definition handleUnlink (provider uid : Json) (confirmed : bool)
    (replyUnlink replyList : Reply) : M State unit :=
  if negb confirmed then ret tt
  else
    try_catch
      (zoom worldL
         (Api.post "/api/auth/unlink-account/"
            (JObj [("provider", provider); ("uid", uid)]) replyUnlink) ;;;
       modify (over worldL
                 (toast ToastSuccess
                    (JStr (toString provider
                           +:+ " account disconnected successfully")))) ;;;
       fetchConnectedAccounts replyList)
      (fun err =>
         modify (over worldL
                   (toast ToastError
                      (Js.or (field "error" (error_data err))
                         (JStr "Failed to unlink account"))))).

(** [editingLabel === `${provider}-${acc.uid}`], the test each row of the
    list makes to decide whether it shows the editor. *)
Definition isEditing (provider uid : Json) (s : State) : bool :=
  match editingLabel s with
  | Some k => String.eqb k (toString provider +:+ "-" +:+ toString uid)
  | None => false
  end.

(** The string has no hyphen. *)
Fixpoint hyphen_free (t : string) : bool :=
  match t with
  | EmptyString => true
  | String a t' => negb (Ascii.eqb a (Ascii.ascii_of_nat 45)) && hyphen_free t'
  end.

(** The unlink requests among those sent, by their body. *)
Definition unlinks_sent (w : World) : list Json :=
  omap (fun c =>
          if decide (url c = Some "/api/auth/unlink-account/")
          then Some (body c) else None) (sent w).

End ConnectedAccounts.

(* ===================================================================== *)
(** ** The sync status of an imported repository *)
(* ===================================================================== *)

Module SyncTracker.

(** Modelled from the spec: the four values of syncStatus in the data
    model. The backend that computes them is not among the sources. *)
Inductive SyncStatus := Pending | Syncing | Success | Failed.

(** Modelled from the spec: the record of an imported repository. The
    backend that owns it is not among the sources; the pages only display
    the [sync_status] object the backend returns. Fields as in the data
    model: identity, the private flag, the status and the two optional
    marks a finished sync leaves. *)
Record ImportedRepository := mkRepo {
  id : Z;
  owner : string;
  name : string;
  branch : string;
  private : bool;
  syncStatus : SyncStatus;
  lastSyncedAt : option Z;
  lastSyncError : option string
}.

(** Modelled from the spec: import creates the record in status pending,
    with neither mark. *)
Definition importRepository (i : Z) (o n b : string) (p : bool)
    : ImportedRepository :=
  mkRepo i o n b p Pending None None.

(** Modelled from the spec: what can happen to a repository after import
    (a sync request, and the two ways a sync ends), as the backend sees it;
    the backend is not among the sources. *)
Inductive Event :=
  | SyncRequested
  | SyncCompleted (at_time : Z)
  | SyncFailed (error : string).

(** Modelled from the spec: the status machine of section 4.5. A sync
    request moves pending to syncing; completion moves syncing to success
    and records the time; failure moves syncing to failed and records the
    error; a request while already syncing is a retry of the same sync; in
    every other combination nothing moves. *)
Definition step (r : ImportedRepository) (e : Event) : ImportedRepository :=
  match syncStatus r, e with
  | Pending, SyncRequested =>
      mkRepo (id r) (owner r) (name r) (branch r) (private r)
             Syncing (lastSyncedAt r) (lastSyncError r)
  | Syncing, SyncCompleted t =>
      mkRepo (id r) (owner r) (name r) (branch r) (private r)
             Success (Some t) (lastSyncError r)
  | Syncing, SyncFailed err =>
      mkRepo (id r) (owner r) (name r) (branch r) (private r)
             Failed (lastSyncedAt r) (Some err)
  | _, _ => r
  end.

Definition run (es : list Event) (r : ImportedRepository) : ImportedRepository :=
  foldl step r es.

(** The three moves of the machine. *)
Definition allowed (a b : SyncStatus) : bool :=
  match a, b with
  | Pending, Syncing | Syncing, Success | Syncing, Failed => true
  | _, _ => false
  end.

(** The marks agree with the status: success carries a sync time, failed
    carries an error, pending carries neither. *)
Definition marked (r : ImportedRepository) : Prop :=
  match syncStatus r with
  | Pending => lastSyncedAt r = None ∧ lastSyncError r = None
  | Syncing => True
  | Success => is_Some (lastSyncedAt r)
  | Failed => is_Some (lastSyncError r)
  end.

End SyncTracker.

(* ===================================================================== *)
(** ** pages/SubmitCode *)
(* ===================================================================== *)

Module SubmitCode.

(** A JavaScript string is a sequence of UTF-16 code units. The code in the
    editor is kept as such, because [trim] tells code units apart that lie
    beyond the 255 a character of [string] reaches. *)
Definition CodeUnit : Type := N.

(** The code units [String.prototype.trim] removes: WhiteSpace and
    LineTerminator of ECMAScript, that is tab, line feed, vertical tab,
    form feed, carriage return, space, no-break space, U+1680, U+2000 to
    U+200A, U+2028, U+2029, U+202F, U+205F, U+3000 and U+FEFF. *)
Definition isWhiteSpace (u : CodeUnit) : bool :=
  ((u =? 0x9) || (u =? 0xA) || (u =? 0xB) || (u =? 0xC) || (u =? 0xD) ||
   (u =? 0x20) || (u =? 0xA0) || (u =? 0x1680) ||
   ((0x2000 <=? u) && (u <=? 0x200A)) ||
   (u =? 0x2028) || (u =? 0x2029) || (u =? 0x202F) || (u =? 0x205F) ||
   (u =? 0x3000) || (u =? 0xFEFF))%N.

Fixpoint trimStart (t : list CodeUnit) : list CodeUnit :=
  match t with
  | [] => []
  | u :: t' => if isWhiteSpace u then trimStart t' else t
  end.

Fixpoint trimEnd (t : list CodeUnit) : list CodeUnit :=
  match t with
  | [] => []
  | u :: t' =>
      match trimEnd t' with
      | [] => if isWhiteSpace u then [] else [u]
      | rest => u :: rest
      end
  end.

(** [t.trim()] *)
Definition trim (t : list CodeUnit) : list CodeUnit := trimEnd (trimStart t).

(** Every code unit of the string is white space. *)
Fixpoint blank (t : list CodeUnit) : bool :=
  match t with
  | [] => true
  | u :: t' => isWhiteSpace u && blank t'
  end.

Record Filters := mkFilters {
  filter_language : string;
  filter_ordering : string
}.

Record State := mkState {
  world : World;
  code : list CodeUnit;
  language : string;
  submissions : Json;
  loading : bool;
  page : Z;
  totalPages : Json;
  filters : Filters
}.

Definition worldL : Lens State World :=
  mkLens State World world
    (fun w s => mkState w (code s) (language s) (submissions s) (loading s)
                  (page s) (totalPages s) (filters s)).

Definition setCode (c : list CodeUnit) (s : State) : State :=
  mkState (world s) c (language s) (submissions s) (loading s) (page s)
    (totalPages s) (filters s).

Definition setSubmissions (l : Json) (s : State) : State :=
  mkState (world s) (code s) (language s) l (loading s) (page s)
    (totalPages s) (filters s).

Definition setLoading (b : bool) (s : State) : State :=
  mkState (world s) (code s) (language s) (submissions s) b (page s)
    (totalPages s) (filters s).

Definition setTotalPages (n : Json) (s : State) : State :=
  mkState (world s) (code s) (language s) (submissions s) (loading s) (page s)
    n (filters s).

(** The entries of the [URLSearchParams] built for a listing: the page,
    then each filter that is not empty. *)
Definition params (pageNum : Z) (f : Filters) : list (string * string) :=
  ([("page", toString (JNum pageNum))] ++
   (match filter_language f with
    | EmptyString => []
    | l => [("language", l)]
    end) ++
   (match filter_ordering f with
    | EmptyString => []
    | o => [("ordering", o)]
    end))%list.

Section Platform.

(** [URLSearchParams.prototype.toString], the serialisation of the entries
    into a query string. *)
Variable serialize : list (string * string) → string.

(** [v => Math.ceil(v / 10)] on whatever the response carries as count. *)
Variable ceilTenth : Json → Json.

(** The bytes a JavaScript string goes on the wire as: the strings of
    [Json] hold bytes, and a request body is sent in UTF-8. *)
Variable utf8 : list CodeUnit → string.

(** [fetchSubmissions(pageNum)]; [filters] is the one of the render the
    call is made in. *)
Definition fetchSubmissions (pageNum : Z) (reply : Reply) : M State unit :=
  fun s0 =>
    try_catch
      (let* res := zoom worldL
                     (Api.get ("/api/submissions/?"
                               +:+ serialize (params pageNum (filters s0)))
                        reply) in
       match data res with
       | JArr l =>
           modify (setSubmissions (JArr l)) ;;;
           modify (setTotalPages (JNum 1))
       | d =>
           let* results := read "results" d in
           modify (setSubmissions (Js.or results (JArr []))) ;;;
           let* count := read "count" d in
           modify (setTotalPages (ceilTenth (Js.or count (JNum 0))))
       end)
      (fun err =>
         match response_of err with
         | Some r =>
             if status r =? 401 then ret tt
             else modify (over worldL
                            (toast ToastError
                               (JStr "Failed to load submissions")))
         | None =>
             modify (over worldL
                       (toast ToastError (JStr "Failed to load submissions")))
         end)
      s0.

(** [submitCode]; the refresh it awaits is [fetchSubmissions()], that is
    page 1. *)
Definition submitCode (replyPost replyList : Reply) : M State unit :=
  fun s0 =>
    match trim (code s0) with
    | [] =>
        modify (over worldL
                  (toast ToastError
                     (JStr "Please enter some code before submitting"))) s0
    | _ :: _ =>
        finally
          (try_catch
             (modify (setLoading true) ;;;
              zoom worldL
                (Api.post "/api/submissions/"
                   (JObj [("code", JStr (utf8 (code s0)));
                          ("language", JStr (language s0))])
                   replyPost) ;;;
              modify (over worldL
                        (toast ToastSuccess
                           (JStr "Code submitted successfully!"))) ;;;
              modify (setCode []) ;;;
              fetchSubmissions 1 replyList)
             (fun err =>
                modify (over worldL
                          (toast ToastError
                             (Js.or (field "error" (error_data err))
                                (JStr "Submission failed. Please try again."))))))
          (setLoading false) s0
    end.

(** The effect on [page] and [filters]: [fetchSubmissions(page)]. *)
Definition refresh (reply : Reply) : M State unit :=
  fun s0 => fetchSubmissions (page s0) reply s0.

End Platform.

(** The submissions posted among the requests sent, by their body. *)
Definition submitted (w : World) : list Json :=
  omap (fun c =>
          match method c with
          | POST => if decide (url c = Some "/api/submissions/")
                    then Some (body c) else None
          | _ => None
          end) (sent w).

End SubmitCode.

(* ===================================================================== *)
(** ** pages/GitHubRepos *)
(* ===================================================================== *)

Module GitHubRepos.

Record State := mkState {
  world : World;
  repos : Json;
  loading : bool;
  githubConnected : Json;
  checking : bool;
  githubAccounts : Json;
  selectedAccount : Json;
  importing : gmap string bool
}.

Definition worldL : Lens State World :=
  mkLens State World world
    (fun w s => mkState w (repos s) (loading s) (githubConnected s)
                  (checking s) (githubAccounts s) (selectedAccount s)
                  (importing s)).

Definition setRepos (r : Json) (s : State) : State :=
  mkState (world s) r (loading s) (githubConnected s) (checking s)
    (githubAccounts s) (selectedAccount s) (importing s).

Definition setLoading (b : bool) (s : State) : State :=
  mkState (world s) (repos s) b (githubConnected s) (checking s)
    (githubAccounts s) (selectedAccount s) (importing s).

Definition setGithubConnected (v : Json) (s : State) : State :=
  mkState (world s) (repos s) (loading s) v (checking s)
    (githubAccounts s) (selectedAccount s) (importing s).

Definition setSelectedAccount (v : Json) (s : State) : State :=
  mkState (world s) (repos s) (loading s) (githubConnected s) (checking s)
    (githubAccounts s) v (importing s).

Definition setImporting (m : gmap string bool) (s : State) : State :=
  mkState (world s) (repos s) (loading s) (githubConnected s) (checking s)
    (githubAccounts s) (selectedAccount s) m.

(** The target of the repository listing for [uid]. *)
Definition repos_url (uid : Json) : string :=
  if truthy uid
  then "/api/auth/github/repos/?github_uid=" +:+ toString uid
  else "/api/auth/github/repos/".

(** [fetchRepos(githubUid)]; [selected] is the [selectedAccount] of the
    render the function was created in. *)
Definition fetchRepos (selected githubUid : Json) (reply : Reply)
    : M State unit :=
  finally
    (try_catch
       (modify (setLoading true) ;;;
        let* res := zoom worldL
                      (Api.get (repos_url (Js.or githubUid selected)) reply) in
        modify (setRepos (data res)))
       (fun err =>
          match response_of err with
          | Some r =>
              if status r =? 400 then
                modify (setGithubConnected (JBool false)) ;;;
                modify (over worldL
                          (toast ToastError
                             (JStr "GitHub account not connected. Please connect your GitHub account.")))
              else
                modify (over worldL
                          (toast ToastError (JStr "Failed to load repositories")))
          | None =>
              modify (over worldL
                        (toast ToastError (JStr "Failed to load repositories")))
          end))
    (setLoading false).

(** [handleAccountChange(uid)]. The listing is started without being
    awaited; it never rejects, and is run here where it is started. *)
Definition handleAccountChange (uid : Json) (reply : Reply) : M State unit :=
  fun s0 =>
    (modify (setSelectedAccount uid) ;;;
     fetchRepos (selectedAccount s0) uid reply) s0.

(** [s.split('/')[0]]: the part of [s] before its first slash. *)
Fixpoint firstSegment (t : string) : string :=
  match t with
  | EmptyString => EmptyString
  | String a t' =>
      if Ascii.eqb a (Ascii.ascii_of_nat 47) then EmptyString
      else String a (firstSegment t')
  end.

(** [v.toString()]: it throws on [undefined] and [null]. *)
Definition toStringOf {S} (v : Json) : M S Json :=
  match v with
  | JUndefined | JNull => throw TypeError
  | _ => ret (JStr (toString v))
  end.

(** [repo.owner?.login || repo.full_name.split('/')[0]]; [split] exists on
    strings only. *)
Definition ownerOf {S} (repo : Json) : M S Json :=
  let login := field "login" (field "owner" repo) in
  if truthy login then ret login
  else
    match field "full_name" repo with
    | JStr full_name => ret (JStr (firstSegment full_name))
    | _ => throw TypeError
    end.

(** The [try]/[catch]/[finally] statement of [handleImportRepo], for a
    [repo] whose [id] can be read; [importing] and [selectedAccount] are
    those of the render. *)
Definition importAttempt (repo : Json) (reply : Reply) : M State unit :=
  fun s0 =>
    finally
      (try_catch
         (modify (setImporting
                    (<[toString (field "id" repo) := true]> (importing s0))) ;;;
          let* repo_id := toStringOf (field "id" repo) in
          let* owner := ownerOf repo in
          let payload :=
            JObj [("github_uid", selectedAccount s0);
                  ("repo_id", repo_id);
                  ("owner", owner);
                  ("name", field "name" repo);
                  ("branch",
                   Js.or (field "default_branch" repo) (JStr "main"))] in
          let* res := zoom worldL
                        (Api.post "/api/repositories/import/" payload reply) in
          let* message := read "message" (data res) in
          modify (over worldL
                    (toast ToastSuccess
                       (Js.or message
                          (JStr "Repository imported successfully!")))))
         (fun err =>
            modify (over worldL
                      (toast ToastError
                         (Js.or (field "error" (error_data err))
                            (JStr "Failed to import repository"))))))
      (setImporting
         (<[toString (field "id" repo) := false]> (importing s0)))
      s0.

(** [handleImportRepo(repo)]. On a [repo] that is [undefined] or [null] the
    read of [repo.id] throws in the [try] block, which shows the failure
    notice, and again in the [finally] block, which rejects the handler. *)
Definition handleImportRepo (repo : Json) (reply : Reply) : M State unit :=
  match repo with
  | JUndefined | JNull =>
      modify (over worldL
                (toast ToastError (JStr "Failed to import repository"))) ;;;
      throw TypeError
  | _ => importAttempt repo reply
  end.

(** The import requests among those sent, by their body. *)
Definition imports_sent (w : World) : list Json :=
  omap (fun c =>
          if decide (url c = Some "/api/repositories/import/")
          then Some (body c) else None) (sent w).

(** The record can be sent: it has an id, and an owner login or a full
    name to take the owner from. *)
Definition importable (repo : Json) : bool :=
  match repo with
  | JUndefined | JNull => false
  | _ =>
      match field "id" repo with
      | JUndefined | JNull => false
      | _ =>
          truthy (field "login" (field "owner" repo)) ||
          match field "full_name" repo with
          | JStr _ => true
          | _ => false
          end
      end
  end.

End GitHubRepos.

(* ===================================================================== *)
(** ** pages/Profile *)
(* ===================================================================== *)

Module Profile.

(** A [File] of the picture input, as far as the page looks at it. *)
Record File := mkFile {
  type : string;
  size : Z
}.

Definition file_json (f : File) : Json :=
  JObj [("type", JStr (type f)); ("size", JNum (size f))].

Record State := mkState {
  world : World;
  loading : bool;
  isEditing : bool;
  profile : gmap string Json;
  preview : Json;
  originalProfile : option (gmap string Json)
}.

Definition worldL : Lens State World :=
  mkLens State World world
    (fun w s => mkState w (loading s) (isEditing s) (profile s) (preview s)
                  (originalProfile s)).

Definition setIsEditing (b : bool) (s : State) : State :=
  mkState (world s) (loading s) b (profile s) (preview s) (originalProfile s).

Definition setProfile (p : gmap string Json) (s : State) : State :=
  mkState (world s) (loading s) (isEditing s) p (preview s) (originalProfile s).

Definition setPreview (v : Json) (s : State) : State :=
  mkState (world s) (loading s) (isEditing s) (profile s) v (originalProfile s).

Definition setOriginalProfile (o : option (gmap string Json)) (s : State)
    : State :=
  mkState (world s) (loading s) (isEditing s) (profile s) (preview s) o.

(** The object [fetchProfile] builds from a response body. *)
Definition profileData (first_name last_name url bio role : Json)
    : gmap string Json :=
  <["first_name" := Js.or first_name (JStr EmptyString)]>
    (<["last_name" := Js.or last_name (JStr EmptyString)]>
       (<["profile_picture" := JNull]>
          (<["profile_picture_url" := Js.or url (JStr EmptyString)]>
             (<["bio" := Js.or bio (JStr EmptyString)]>
                (<["role" := Js.or role (JStr EmptyString)]> ∅))))).

Definition fetchProfile (reply : Reply) : M State unit :=
  try_catch
    (let* res := zoom worldL (Api.get "/api/auth/profile/" reply) in
     let* first_name := read "first_name" (data res) in
     let* last_name := read "last_name" (data res) in
     let* url := read "profile_picture_url" (data res) in
     let* bio := read "bio" (data res) in
     let* role := read "role" (data res) in
     modify (setProfile (profileData first_name last_name url bio role)) ;;;
     modify (setOriginalProfile
               (Some (profileData first_name last_name url bio role))) ;;;
     modify (setPreview (Js.or url (JStr EmptyString))))
    (fun err =>
       modify (over worldL (toast ToastError (JStr "Failed to load profile")))).

Definition handleCancel (s : State) : State :=
  setIsEditing false
    (match originalProfile s with
     | Some o =>
         setPreview
           (Js.or (default JUndefined (o !! "profile_picture_url"))
              (JStr EmptyString))
           (setProfile (<["profile_picture" := JNull]> o) s)
     | None => s
     end).

Definition handleEdit (s : State) : State := setIsEditing true s.

(** The largest picture taken: [5 * 1024 * 1024] bytes. *)
Definition maxSize : Z := 5 * 1024 * 1024.

(** [handleChange(e)], with [e.target.name], [e.target.value] and
    [e.target.files] ([None] for [null]). [dataUrl] is what the
    [FileReader] started for an accepted picture reports when it is done;
    its [onloadend] is run here where the read is started. *)
Definition handleChange (name value : string) (files : option (list File))
    (dataUrl : Json) (s : State) : State :=
  match String.eqb name "profile_picture", files with
  | true, Some (file :: _) =>
      if negb (startsWith "image/" (type file)) then
        over worldL (toast ToastError (JStr "Please select an image file")) s
      else if maxSize <? size file then
        over worldL
          (toast ToastError (JStr "Image size should be less than 5MB")) s
      else
        setPreview dataUrl
          (setProfile (<["profile_picture" := file_json file]> (profile s)) s)
  | _, _ => setProfile (<[name := JStr value]> (profile s)) s
  end.

(** The part of [handleChange] that runs in the event handler itself:
    everything up to [reader.readAsDataURL(file)]. The read goes on while
    other handlers run, and ends with [onloadend]. *)
Definition handleChange_sync (name value : string)
    (files : option (list File)) (s : State) : State :=
  match String.eqb name "profile_picture", files with
  | true, Some (file :: _) =>
      if negb (startsWith "image/" (type file)) then
        over worldL (toast ToastError (JStr "Please select an image file")) s
      else if maxSize <? size file then
        over worldL
          (toast ToastError (JStr "Image size should be less than 5MB")) s
      else
        setProfile (<["profile_picture" := file_json file]> (profile s)) s
  | _, _ => setProfile (<[name := JStr value]> (profile s)) s
  end.

(** [reader.onloadend], with [reader.result]. *)
Definition onloadend (result : Json) (s : State) : State :=
  setPreview result s.

(** Whether [handleChange] starts a read: a picture that passes both
    checks. *)
Definition starts_read (name : string) (files : option (list File)) : bool :=
  match String.eqb name "profile_picture", files with
  | true, Some (file :: _) =>
      startsWith "image/" (type file) && negb (maxSize <? size file)
  | _, _ => false
  end.

(** What happens to the form while it is being edited: a field changes,
    or a read that some earlier change started comes to its end. *)
Inductive Event :=
  | Changed (name value : string) (files : option (list File))
  | ReadEnded (result : Json).

Definition step (e : Event) (s : State) : State :=
  match e with
  | Changed name value files => handleChange_sync name value files s
  | ReadEnded result => onloadend result s
  end.

Definition run (es : list Event) (s : State) : State :=
  foldl (fun s e => step e s) s es.

End Profile.

(* ===================================================================== *)
(** ** Several calls failing one after another *)
(* ===================================================================== *)

Module Expiry.

(** A handler run in the document on display. An assignment to
    [window.location.href] only starts the load of the other document:
    [location.pathname] keeps the value of the document on display for
    every handler that still runs in it. For handlers that change no route
    themselves. *)
Definition in_document {A} (m : M World A) : M World A :=
  fun w =>
    let '(r, w') := m w in
    (r, mkWorld (localStorage w') (toasts w') (pathname w) (page_loads w')
          (sent w')).

(** The rejection handler run for each of the errors in turn, in one
    document, as happens when several calls in flight are answered. *)
Definition reject_all (errs : list AxiosError) (w : World) : World :=
  foldl (fun w e => snd (in_document (@Api.response_rejected Response e) w))
    w errs.

(** An error that stands for an expired session: status 401 from a target
    that is not public. *)
Definition expired (e : AxiosError) : Prop :=
  (∃ r, response e = Some r ∧ status r = 401) ∧ Api.isAuthEndpoint e = false.

(** A reply that is neither a success nor a 401. *)
Definition plain_failure (reply : Reply) : Prop :=
  match reply with
  | NoResponse => True
  | Replied r => Api.validateStatus (status r) = false ∧ status r ≠ 401
  end.

End Expiry.

(* ===================================================================== *)
(** ** The logout button of the pages *)
(* ===================================================================== *)

Module LogoutButton.

(** [handleLogout], the same three lines in ImportedRepos, GitHubRepos and
    SubmitCode: [logout()], a notice, [navigate("/login")]. *)
Definition handleLogout (s : AuthContext.State) : AuthContext.State :=
  over AuthContext.worldL (navigate "/login")
    (over AuthContext.worldL
       (toast ToastSuccess (JStr "Logged out successfully"))
       (AuthContext.logout s)).

End LogoutButton.

(* ===================================================================== *)
(** ** Sample browser states, calls and replies *)
(* ===================================================================== *)

Module Sample.

Definition signed_in : World :=
  mkWorld (<["access" := "T1"]> (<["refresh" := "R1"]> (<["theme" := "dark"]> ∅)))
          [] "/" 0%nat [].

Definition fresh : World := mkWorld ∅ [] "/login" 0%nat [].

Definition empty_token : World :=
  mkWorld (<["access" := EmptyString]> (<["refresh" := "R1"]> ∅)) [] "/" 0%nat [].

Definition get_submissions : Config :=
  mkConfig GET (Some "/api/submissions/?page=1") ∅ JUndefined.

Definition post_login : Config :=
  mkConfig POST (Some "/api/auth/login/") ∅
           (JObj [("email", JStr "a@x.com"); ("password", JStr "secret1")]).

Definition unauthorized : Response :=
  mkResponse 401 (JObj [("detail", JStr "Given token not valid for any token type")]).

Definition issued : Response :=
  mkResponse 200 (JObj [("access", JStr "T1"); ("refresh", JStr "R1")]).

Definition email_taken : Response :=
  mkResponse 400
    (JObj [("email",
            JArr [JStr "A user is already registered with this e-mail address."])]).

Definition no_content : Response := mkResponse 204 JUndefined.



(** The same, with the listing answered 401. *)
Definition expiry_after_login : list Session.Step :=
  [ Session.Operation
      (AuthContext.OpLogin (JStr "a@x.com") (JStr "secret1") (Replied issued));
    Session.Navigate "/";
    Session.Call get_submissions (Replied unauthorized) ].


Definition label_updated : Response :=
  mkResponse 200 (JObj [("message", JStr "Label updated")]).

(** A listing of connected accounts whose GitHub account carries [label]. *)
Definition accounts_with (label : Json) : Response :=
  mkResponse 200
    (JObj [("github",
            JArr [JObj [("uid", JStr "42"); ("username", JStr "octocat");
                        ("label", label)]]);
           ("google", JArr [])]).

(** An edit within the limit: open the label, retype it, save. *)
Definition short_edit : list ConnectedAccounts.Event :=
  [ ConnectedAccounts.Fetch (Replied (accounts_with (JStr "Work")));
    ConnectedAccounts.StartEditing (JStr "github") (JStr "42") (JStr "Work");
    ConnectedAccounts.Change "Personal";
    ConnectedAccounts.Save (JStr "github") (JStr "42")
      (Replied label_updated) (Replied (accounts_with (JStr "Personal"))) ].

Definition empty_list : Response := mkResponse 200 (JArr []).

(** A label of 101 characters. *)
Definition long_label : string :=
  String.string_of_list_ascii (repeat (Ascii.ascii_of_nat 97) 101).

(** An edit that starts from a stored label of 101 characters and saves
    it as it stands. *)
Definition long_edit : list ConnectedAccounts.Event :=
  [ ConnectedAccounts.Fetch (Replied (accounts_with (JStr long_label)));
    ConnectedAccounts.StartEditing (JStr "github") (JStr "42")
      (field "label" (first (field "github" (data (accounts_with (JStr long_label))))));
    ConnectedAccounts.Save (JStr "github") (JStr "42")
      (Replied label_updated) (Replied (accounts_with (JStr long_label))) ].

(** The record of an imported repository. *)
Definition repository_42 : Json :=
  JObj [("id", JNum 42); ("owner", JStr "octocat"); ("name", JStr "hello");
        ("branch", JStr "main"); ("sync_status", JStr "success")].

(** The imported repositories page showing that repository, and the backend
    holding its record. *)
Definition one_repository : Removal.System :=
  Removal.mkSystem
    (ImportedRepos.mkState signed_in (JArr [repository_42]) false ∅)
    (<["/api/repositories/42/" := repository_42]> ∅).


(** A profile as the backend returns it, with no role set. *)
Definition profile_body : Json :=
  JObj [("first_name", JStr "Ada"); ("last_name", JStr "Lovelace");
        ("profile_picture_url", JNull); ("bio", JStr "Analyst");
        ("role", JNull)].

(** The user retypes the first name, picks a text file (refused) and then
    a small picture, whose read comes to its end. *)
Definition profile_edits : list Profile.Event :=
  [ Profile.Changed "first_name" "Augusta" None;
    Profile.Changed "profile_picture" "notes.txt"
      (Some [Profile.mkFile "text/plain" 120]);
    Profile.Changed "profile_picture" "me.png"
      (Some [Profile.mkFile "image/png" 2048]);
    Profile.ReadEnded (JStr "data:image/png;base64,AAAA") ].

Definition profile_page : Profile.State :=
  Profile.mkState signed_in false false ∅ (JStr EmptyString) None.

End Sample.

(* ===================================================================== *)
(** * Properties *)
(* ===================================================================== *)

(** Unfolding the control structure of a handler, and the verbs of the
    axios instance, leaves the calls themselves to be reasoned about. *)
Create HintDb monad.
Create HintDb calls.
#[local] Hint Unfold finally try_catch bind modify zoom : monad.
#[local] Hint Unfold Api.get Api.post Api.delete : calls.

(** ** Strings *)

Lemma startsWith_spec (p s : string) :
  startsWith p s = true ↔ ∃ post, s = p +:+ post.
Proof.
  revert s. induction p as [|a p IH]; intros s; simpl.
  - split; [intros _; by exists s | done].
  - destruct s as [|b s].
    + split; [done | intros [post H]; discriminate].
    + rewrite andb_true_iff, IH. split.
      * intros [Hab [post ->]]. apply Ascii.eqb_eq in Hab. subst b.
        by exists post.
      * intros [post H]. injection H as -> ->. split.
        -- apply Ascii.eqb_refl.
        -- by exists post.
Qed.

Lemma includes_spec (s p : string) :
  includes s p = true ↔ ∃ pre post, s = pre +:+ p +:+ post.
Proof.
  induction s as [|b s IH].
  - cbn [includes]. rewrite orb_false_r, startsWith_spec. split.
    + intros [post H]. by exists EmptyString, post.
    + intros [pre [post H]]. destruct pre; [by exists post | discriminate].
  - cbn [includes]. rewrite orb_true_iff, startsWith_spec, IH. split.
    + intros [[post H] | [pre [post H]]].
      * by exists EmptyString, post.
      * exists (String b pre), post. simpl. by rewrite H.
    + intros [pre [post H]]. destruct pre as [|c pre].
      * left. by exists post.
      * right. simpl in H. injection H as _ H. by exists pre, post.
Qed.

(** ** The public allow-list *)

Lemma some_includes_spec (u : option string) :
  Api.some_includes u = true ↔
  ∃ s e pre post, u = Some s ∧ In e Api.publicEndpoints ∧ s = pre +:+ e +:+ post.
Proof.
  unfold Api.some_includes. rewrite existsb_exists. split.
  - intros [e [Hin H]]. destruct u as [s|]; [|done].
    apply includes_spec in H as [pre [post H]]. by exists s, e, pre, post.
  - intros [s [e [pre [post [-> [Hin H]]]]]]. exists e. split; [done|].
    apply includes_spec. by exists pre, post.
Qed.

(** C10. A call target is public exactly when its URL contains one of the
    four fixed strings as a substring, whatever surrounds it, and the
    request interceptor and the rejection handler of the response
    interceptor compute the same classification for the same call. *)
Theorem public_by_substring_in_both_interceptors (c : Config) (r : option Response) :
  (Api.isPublicEndpoint c = true ↔
     ∃ u e pre post,
       url c = Some u ∧
       In e [ "/api/auth/login/"; "/api/auth/registration/";
              "/api/auth/google/"; "/accounts/github/login/" ] ∧
       u = pre +:+ e +:+ post) ∧
  Api.isAuthEndpoint (mkError r (Some c)) = Api.isPublicEndpoint c.
Proof.
  split; [|reflexivity].
  unfold Api.isPublicEndpoint. apply some_includes_spec.
Qed.

(** A URL that merely contains a public path is public although it equals
    none of the four. *)
Example public_not_exact :
  Api.some_includes (Some "/api/reviews/?next=/api/auth/login/") = true ∧
  ¬ In "/api/reviews/?next=/api/auth/login/" Api.publicEndpoints.
Proof.
  split; [reflexivity|]. unfold Api.publicEndpoints. simpl.
  intros [H|[H|[H|[H|[]]]]]; discriminate.
Qed.

(** ** The interceptors *)

Lemma request_interceptor_url (w : World) (c : Config) :
  url (Api.request_interceptor w c) = url c.
Proof.
  unfold Api.request_interceptor.
  destruct (negb (Api.isPublicEndpoint c)); [|done].
  destruct (getItem "access" w) as [[|a t]|]; done.
Qed.

Lemma request_interceptor_public (w : World) (c : Config) :
  Api.isPublicEndpoint (Api.request_interceptor w c) = Api.isPublicEndpoint c.
Proof. unfold Api.isPublicEndpoint. by rewrite request_interceptor_url. Qed.

(** What the rejection handler does to the browser on a 401. *)
Lemma response_rejected_401 (A : Type) (err : AxiosError) (r : Response) (w : World) :
  response err = Some r → status r = 401 →
  @Api.response_rejected A err w =
    (Rejected (AxiosRejection err),
     if Api.isAuthEndpoint err then w
     else
       let w3 := toast ToastError
                   (JStr "Your session has expired. Please login again.")
                   (removeItem "refresh" (removeItem "access" w)) in
       if String.eqb (pathname w) "/login" then w3 else set_href "/login" w3).
Proof.
  intros Hr Hs. unfold Api.response_rejected. rewrite Hr, Hs. simpl.
  destruct (Api.isAuthEndpoint err); simpl; [done|].
  by destruct (String.eqb (pathname w) "/login").
Qed.

(** C1. A call answered with status 401 is rejected with that response
    unmodified. When its target is not public, the access and the refresh
    token are removed from storage, the session-expired notice is shown and
    the browser is at the login page afterwards (a document load is issued
    unless it already was there). When its target is public, storage, the
    notices and the location are as before. *)
Theorem session_expiry_on_401 (c : Config) (r : Response) (w : World) :
  status r = 401 →
  let c' := Api.request_interceptor w c in
  let w' := snd (Api.request c (Replied r) w) in
  fst (Api.request c (Replied r) w)
    = Rejected (AxiosRejection (mkError (Some r) (Some c'))) ∧
  (Api.isPublicEndpoint c = false →
     localStorage w' = delete "refresh" (delete "access" (localStorage w)) ∧
     getItem "access" w' = None ∧
     getItem "refresh" w' = None ∧
     toasts w' =
       (toasts w ++
        [(ToastError, JStr "Your session has expired. Please login again.")])%list ∧
     pathname w' = "/login" ∧
     page_loads w' =
       (if String.eqb (pathname w) "/login" then page_loads w
        else Datatypes.S (page_loads w))) ∧
  (Api.isPublicEndpoint c = true →
     localStorage w' = localStorage w ∧
     toasts w' = toasts w ∧
     pathname w' = pathname w ∧
     page_loads w' = page_loads w).
Proof.
  intros Hs c' w'. subst w'. unfold Api.request. fold c'.
  assert (validateStatus_401 : Api.validateStatus (status r) = false)
    by (rewrite Hs; reflexivity).
  rewrite validateStatus_401.
  rewrite (response_rejected_401 Response _ r) by done.
  assert (Hcls : Api.isAuthEndpoint (mkError (Some r) (Some c'))
                 = Api.isPublicEndpoint c).
  { unfold Api.isAuthEndpoint, Api.isPublicEndpoint. simpl. subst c'.
    by rewrite request_interceptor_url. }
  rewrite Hcls. split; [done|]. split; intros Hp; rewrite Hp; simpl.
  - destruct (String.eqb (pathname w) "/login") eqn:Hpath; simpl.
    + apply String.eqb_eq in Hpath.
      repeat split; try done.
      * unfold getItem; simpl. rewrite lookup_delete_ne by done.
        apply lookup_delete_eq.
      * unfold getItem; simpl. apply lookup_delete_eq.
    + repeat split; try done.
      * unfold getItem; simpl. rewrite lookup_delete_ne by done.
        apply lookup_delete_eq.
      * unfold getItem; simpl. apply lookup_delete_eq.
  - done.
Qed.

(** C3 (amended). With a non-empty access token [T] stored, a call whose
    target is not public leaves the request interceptor with the header
    [Authorization: Bearer T] and is otherwise as it came; a call whose
    target is public leaves it unchanged, so no header is attached. *)
Theorem bearer_attached_unless_public (c : Config) (w : World) (T : string) :
  getItem "access" w = Some T →
  T ≠ EmptyString →
  (Api.isPublicEndpoint c = false →
     headers (Api.request_interceptor w c)
       = <["Authorization" := "Bearer " +:+ T]> (headers c) ∧
     headers (Api.request_interceptor w c) !! "Authorization"
       = Some ("Bearer " +:+ T) ∧
     method (Api.request_interceptor w c) = method c ∧
     url (Api.request_interceptor w c) = url c ∧
     body (Api.request_interceptor w c) = body c) ∧
  (Api.isPublicEndpoint c = true → Api.request_interceptor w c = c).
Proof.
  intros Hget HT. unfold Api.request_interceptor. rewrite Hget.
  split; intros Hp; rewrite Hp; simpl; [|done].
  destruct T as [|a t]; [done|]. simpl.
  repeat split. apply lookup_insert_eq.
Qed.

(** Without a stored token, or with the empty string stored, nothing is
    attached to any call. *)
Lemma no_token_no_header (c : Config) (w : World) :
  getItem "access" w = None ∨ getItem "access" w = Some EmptyString →
  Api.request_interceptor w c = c.
Proof.
  intros H. unfold Api.request_interceptor.
  destruct (negb (Api.isPublicEndpoint c)); [|done].
  by destruct H as [-> | ->].
Qed.

(** An expired session: a protected listing answered with 401 while a pair
    is stored. *)
Lemma session_expiry_on_401_witness :
  status Sample.unauthorized = 401 ∧
  getItem "access"
    (snd (Api.request Sample.get_submissions (Replied Sample.unauthorized)
            Sample.signed_in)) = None.
Proof.
  split; [reflexivity|].
  pose proof (session_expiry_on_401 Sample.get_submissions Sample.unauthorized
                Sample.signed_in eq_refl) as H.
  cbv zeta in H. destruct H as (_ & H & _).
  destruct (H eq_refl) as (_ & Ha & _). exact Ha.
Defined.

(** The scenario of the specification: with [T1] stored, a protected call
    carries [Bearer T1] and the login call carries nothing. *)
Lemma bearer_attached_unless_public_witness :
  getItem "access" Sample.signed_in = Some "T1" ∧
  "T1" ≠ EmptyString ∧
  headers (Api.request_interceptor Sample.signed_in Sample.get_submissions)
    !! "Authorization" = Some "Bearer T1" ∧
  Api.request_interceptor Sample.signed_in Sample.post_login = Sample.post_login.
Proof.
  assert (Hne : "T1" ≠ EmptyString) by discriminate.
  split; [reflexivity|]. split; [exact Hne|].
  split.
  - destruct (bearer_attached_unless_public Sample.get_submissions
                Sample.signed_in "T1" eq_refl Hne) as [H _].
    destruct (H eq_refl) as (_ & Hh & _). exact Hh.
  - destruct (bearer_attached_unless_public Sample.post_login
                Sample.signed_in "T1" eq_refl Hne) as [_ H].
    exact (H eq_refl).
Defined.

(** C3, as first stated, fails when the stored access token is the empty
    string: the call is not public, a token is stored, and no
    [Authorization] header is attached. *)
Lemma empty_token_not_attached :
  getItem "access" Sample.empty_token = Some EmptyString ∧
  Api.isPublicEndpoint Sample.get_submissions = false ∧
  headers (Api.request_interceptor Sample.empty_token Sample.get_submissions)
    !! "Authorization" = None ∧
  headers (Api.request_interceptor Sample.empty_token Sample.get_submissions)
    !! "Authorization" ≠ Some ("Bearer " +:+ EmptyString).
Proof.
  split; [reflexivity|]. split; [reflexivity|]. split; [reflexivity|].
  vm_compute. discriminate.
Qed.

(** ** The auth provider *)

(** C9. [logout] empties local storage: no key survives, whatever was
    stored and whether or not it belonged to the credential pair; the user
    flag is cleared. *)
Theorem logout_clears_all_storage (s : AuthContext.State) (k : string) :
  localStorage (AuthContext.world (AuthContext.logout s)) = ∅ ∧
  getItem k (AuthContext.world (AuthContext.logout s)) = None ∧
  AuthContext.user (AuthContext.logout s) = false.
Proof.
  unfold AuthContext.logout, getItem. simpl. by rewrite lookup_empty.
Qed.

(** A key that has nothing to do with the session is gone as well. *)
Example logout_drops_unrelated_key :
  getItem "theme" Sample.signed_in = Some "dark" ∧
  getItem "theme"
    (AuthContext.world (AuthContext.logout (AuthContext.mount Sample.signed_in)))
    = None.
Proof. split; reflexivity. Qed.

(** A call to a public target touches nothing in the browser but the
    wire, whatever the reply. *)
Lemma public_request (c : Config) (reply : Reply) (w : World) :
  Api.isPublicEndpoint c = true →
  Api.request c reply w =
    (match Api.accepted reply with
     | Some r => Fulfilled r
     | None =>
         Rejected (AxiosRejection (mkError (Api.reply_response reply) (Some c)))
     end,
     transmit c w).
Proof.
  intros Hp. unfold Api.request.
  assert (Hc : Api.request_interceptor w c = c).
  { unfold Api.request_interceptor. by rewrite Hp. }
  rewrite Hc. destruct reply as [|r]; simpl.
  - reflexivity.
  - destruct (Api.validateStatus (status r)); [reflexivity|].
    unfold Api.response_rejected. simpl.
    assert (Ha : Api.isAuthEndpoint (mkError (Some r) (Some c)) = true)
      by exact Hp.
    rewrite Ha. simpl. by destruct (status r =? 401).
Qed.

(** What the common body of the three exchanges comes to when its target
    is public. *)
Lemma exchange_outcome (u : string) (payload : Json) (reply : Reply)
    (s : AuthContext.State) :
  Api.some_includes (Some u) = true →
  AuthContext.exchange u payload reply s =
  let c := mkConfig POST (Some u) ∅ payload in
  match AuthContext.grants reply with
  | Some r =>
      (Fulfilled tt,
       AuthContext.mkState
         (setItem "refresh" (field "refresh" (data r))
            (setItem "access" (field "access" (data r))
               (transmit c (AuthContext.world s))))
         true)
  | None =>
      (Rejected (AuthContext.refusal c reply),
       AuthContext.mkState (transmit c (AuthContext.world s))
         (AuthContext.user s))
  end.
Proof.
  intros Hu.
  unfold AuthContext.exchange, AuthContext.grants, AuthContext.refusal.
  unfold bind, zoom, Api.post. cbn -[Api.request].
  rewrite public_request by exact Hu.
  destruct (Api.accepted reply) as [r|]; [|reflexivity].
  destruct (data r) eqn:E; cbn; rewrite ?E; reflexivity.
Qed.

Lemma exchange_settles (u : string) (payload : Json) (reply : Reply)
    (s : AuthContext.State) :
  Api.some_includes (Some u) = true →
  AuthContext.settles reply s (AuthContext.exchange u payload reply s).
Proof.
  intros Hu. unfold AuthContext.settles. rewrite exchange_outcome by exact Hu.
  cbv zeta. destruct (AuthContext.grants reply); simpl; split; try done.
  by eexists.
Qed.

(** On mount the flag is set exactly when a non-empty access token is
    stored; the refresh token is not looked at. *)
Lemma mount_flag (w : World) :
  AuthContext.world (AuthContext.mount w) = w ∧
  (AuthContext.user (AuthContext.mount w) = true ↔
   ∃ T, getItem "access" w = Some T ∧ T ≠ EmptyString).
Proof.
  split; [reflexivity|].
  unfold AuthContext.mount, AuthContext.checkAuth, AuthContext.access_flag.
  simpl. destruct (getItem "access" w) as [[|a t]|]; split; try done.
  - intros [T [[= <-] HT]]. done.
  - intros _. by eexists.
  - intros [T [[=] _]].
Qed.



(** ** The sign-up form *)

Lemma handleSubmit_rejects (em pw1 pw2 : string) (reply : Reply)
    (f : SignUp.State) :
  pw1 ≠ pw2 ∨ (String.length pw1 < 8)%nat →
  SignUp.handleSubmit em pw1 pw2 reply f =
    (Fulfilled tt,
     over SignUp.worldL
       (toast ToastError
          (JStr (if String.eqb pw1 pw2
                 then "Password must be at least 8 characters long"
                 else "Passwords do not match"))) f).
Proof.
  intros H. unfold SignUp.handleSubmit.
  destruct (String.eqb pw1 pw2) eqn:He; simpl; [|reflexivity].
  apply String.eqb_eq in He. destruct H as [H|H]; [done|].
  apply Nat.ltb_lt in H. rewrite H. reflexivity.
Qed.

Lemma handleSubmit_submits (em pw1 pw2 : string) (reply : Reply)
    (f : SignUp.State) :
  pw1 = pw2 → (8 ≤ String.length pw1)%nat →
  SignUp.handleSubmit em pw1 pw2 reply f =
    let w := AuthContext.world (SignUp.auth f) in
    let w1 := transmit (SignUp.registration em pw1 pw2)
                (removeItem "refresh" (removeItem "access" w)) in
    (Fulfilled tt,
     match AuthContext.grants reply with
     | Some r =>
         SignUp.mkState
           (AuthContext.mkState
              (navigate "/"
                 (toast ToastSuccess
                    (JStr "Account created successfully! Welcome!")
                    (setItem "refresh" (field "refresh" (data r))
                       (setItem "access" (field "access" (data r)) w1))))
              true)
           false
     | None =>
         SignUp.mkState
           (AuthContext.mkState
              (toast ToastError
                 (SignUp.errorMessage
                    (AuthContext.refusal (SignUp.registration em pw1 pw2) reply))
                 w1)
              (AuthContext.user (SignUp.auth f)))
           false
     end).
Proof.
  intros He Hl. unfold SignUp.handleSubmit.
  apply String.eqb_eq in He as He'. rewrite He'. simpl negb. cbv iota.
  assert (Hlt : (String.length pw1 <? 8)%nat = false) by (apply Nat.ltb_ge; lia).
  rewrite Hlt.
  change (AuthContext.signup (JStr em) (JStr pw1) (JStr pw2) reply)
    with (AuthContext.exchange "/api/auth/registration/"
            (JObj [("email", JStr em); ("password1", JStr pw1);
                   ("password2", JStr pw2)]) reply).
  autounfold with monad.
  cbn -[AuthContext.exchange].
  rewrite exchange_outcome by reflexivity. cbv zeta.
  unfold SignUp.registration. subst pw2.
  destruct (AuthContext.grants reply); reflexivity.
Qed.

Lemma handleGoogleLogin_outcome (token : Json) (reply : Reply)
    (f : SignUp.State) :
  SignUp.handleGoogleLogin token reply f =
    let w1 := transmit
                (mkConfig POST (Some "/api/auth/google/") ∅
                   (JObj [("access_token", token)]))
                (AuthContext.world (SignUp.auth f)) in
    (Fulfilled tt,
     match AuthContext.grants reply with
     | Some r =>
         SignUp.mkState
           (AuthContext.mkState
              (navigate "/"
                 (toast ToastSuccess
                    (JStr "Account created successfully! Welcome!")
                    (setItem "refresh" (field "refresh" (data r))
                       (setItem "access" (field "access" (data r)) w1))))
              true)
           false
     | None =>
         SignUp.mkState
           (AuthContext.mkState
              (toast ToastError
                 (JStr "Google signup failed. Please try again.") w1)
              (AuthContext.user (SignUp.auth f)))
           false
     end).
Proof.
  unfold SignUp.handleGoogleLogin.
  change (AuthContext.loginWithGoogle token reply)
    with (AuthContext.exchange "/api/auth/google/"
            (JObj [("access_token", token)]) reply).
  autounfold with monad.
  cbn -[AuthContext.exchange].
  rewrite exchange_outcome by reflexivity. cbv zeta.
  destruct (AuthContext.grants reply); reflexivity.
Qed.

Lemma reinstall (a b : string) (m : gmap string string) :
  <["refresh" := b]> (<["access" := a]> (delete "refresh" (delete "access" m)))
  = <["refresh" := b]> (<["access" := a]> m).
Proof.
  apply map_eq. intros k.
  destruct (decide (k = "refresh")) as [->|Hr].
  - by rewrite !lookup_insert_eq.
  - rewrite !(lookup_insert_ne _ "refresh") by done.
    destruct (decide (k = "access")) as [->|Ha].
    + by rewrite !lookup_insert_eq.
    + rewrite !(lookup_insert_ne _ "access") by done.
      by rewrite !lookup_delete_ne.
Qed.

(** C4 (amended). [login], [loginWithGoogle] and [signup] of the provider,
    on success, store both tokens of the reply and set the flag; on failure
    they leave storage and the flag as they were. The sign-up form removes
    both tokens before it calls [signup]: a successful submission ends with
    the new pair installed and the flag set, a failed one with the two
    tokens removed, the rest of storage and the flag untouched. The Google
    button of the form calls [loginWithGoogle] directly and inherits its
    behaviour. *)
Theorem exchanges_install_or_keep_store
    (email password token password1 password2 : Json) (em pw : string)
    (reply : Reply) (s : AuthContext.State) (f : SignUp.State) :
  AuthContext.settles reply s (AuthContext.login email password reply s) ∧
  AuthContext.settles reply s (AuthContext.loginWithGoogle token reply s) ∧
  AuthContext.settles reply s
    (AuthContext.signup email password1 password2 reply s) ∧
  (let out := SignUp.handleGoogleLogin token reply f in
   match AuthContext.grants reply with
   | Some r => AuthContext.installed r (SignUp.auth f) (SignUp.auth (snd out))
   | None => AuthContext.unchanged (SignUp.auth f) (SignUp.auth (snd out))
   end) ∧
  ((8 ≤ String.length pw)%nat →
   let out := SignUp.handleSubmit em pw pw reply f in
   match AuthContext.grants reply with
   | Some r => AuthContext.installed r (SignUp.auth f) (SignUp.auth (snd out))
   | None =>
       localStorage (AuthContext.world (SignUp.auth (snd out)))
         = delete "refresh"
             (delete "access"
                (localStorage (AuthContext.world (SignUp.auth f)))) ∧
       AuthContext.isAuthenticated (SignUp.auth (snd out))
         = AuthContext.isAuthenticated (SignUp.auth f)
   end).
Proof.
  split; [by apply exchange_settles|].
  split; [by apply exchange_settles|].
  split; [by apply exchange_settles|].
  split.
  - rewrite handleGoogleLogin_outcome. cbv zeta.
    destruct (AuthContext.grants reply); simpl; split; reflexivity.
  - intros Hl. rewrite handleSubmit_submits by done. cbv zeta.
    destruct (AuthContext.grants reply); simpl.
    + split; [|reflexivity]. simpl. apply reinstall.
    + split; reflexivity.
Qed.

(** C4, as first stated, fails for a sign-up submission the backend
    rejects: the registration is refused, and the access and refresh tokens
    that were stored before the submission are gone after it. *)
Lemma failed_signup_removes_tokens :
  let f := SignUp.mkState (AuthContext.mount Sample.signed_in) false in
  let out := SignUp.handleSubmit "a@x.com" "secret123" "secret123"
               (Replied Sample.email_taken) f in
  AuthContext.grants (Replied Sample.email_taken) = None ∧
  getItem "access" (AuthContext.world (SignUp.auth f)) = Some "T1" ∧
  getItem "refresh" (AuthContext.world (SignUp.auth f)) = Some "R1" ∧
  getItem "access" (AuthContext.world (SignUp.auth (snd out))) = None ∧
  getItem "refresh" (AuthContext.world (SignUp.auth (snd out))) = None ∧
  toasts (AuthContext.world (SignUp.auth (snd out)))
    = [(ToastError,
        JStr "A user is already registered with this e-mail address.")].
Proof. repeat split. Qed.

(** C5. A submission whose two passwords differ, or whose password has
    fewer than 8 characters, ends at once with an error notice: nothing is
    sent and storage is untouched. A submission whose passwords agree and
    have at least 8 characters sends the registration request; so whenever
    something was sent, the passwords agreed and had at least 8
    characters. *)
Theorem signup_validated_before_any_request (em pw1 pw2 : string)
    (reply : Reply) (f : SignUp.State) :
  let out := SignUp.handleSubmit em pw1 pw2 reply f in
  let w := AuthContext.world (SignUp.auth f) in
  let w' := AuthContext.world (SignUp.auth (snd out)) in
  (pw1 ≠ pw2 ∨ (String.length pw1 < 8)%nat →
     fst out = Fulfilled tt ∧
     sent w' = sent w ∧
     localStorage w' = localStorage w ∧
     pathname w' = pathname w ∧
     AuthContext.user (SignUp.auth (snd out)) = AuthContext.user (SignUp.auth f) ∧
     toasts w' =
       (toasts w ++
        [(ToastError,
          JStr (if String.eqb pw1 pw2
                then "Password must be at least 8 characters long"
                else "Passwords do not match"))])%list) ∧
  (pw1 = pw2 ∧ (8 ≤ String.length pw1)%nat →
     sent w' = (sent w ++ [SignUp.registration em pw1 pw2])%list) ∧
  (sent w' ≠ sent w → pw1 = pw2 ∧ (8 ≤ String.length pw1)%nat).
Proof.
  intros out w w'.
  assert (Hbad : pw1 ≠ pw2 ∨ (String.length pw1 < 8)%nat →
                 fst out = Fulfilled tt ∧
                 sent w' = sent w ∧
                 localStorage w' = localStorage w ∧
                 pathname w' = pathname w ∧
                 AuthContext.user (SignUp.auth (snd out))
                   = AuthContext.user (SignUp.auth f) ∧
                 toasts w' =
                   (toasts w ++
                    [(ToastError,
                      JStr (if String.eqb pw1 pw2
                            then "Password must be at least 8 characters long"
                            else "Passwords do not match"))])%list).
  { intros H. subst out w w'. rewrite handleSubmit_rejects by exact H.
    simpl. repeat split. }
  split; [exact Hbad|]. split.
  - intros [He Hl]. subst out w w'. rewrite handleSubmit_submits by done.
    cbv zeta. destruct (AuthContext.grants reply); reflexivity.
  - intros Hsent.
    destruct (decide (pw1 = pw2)) as [He|Hne].
    + destruct (le_lt_dec 8 (String.length pw1)) as [Hl|Hl]; [done|].
      destruct (Hbad (or_intror Hl)) as (_ & Hs & _). done.
    + destruct (Hbad (or_introl Hne)) as (_ & Hs & _). done.
Qed.

(** The scenario of the specification: the password [short] is refused
    before anything is sent. *)
Example short_password_refused :
  let f := SignUp.mkState (AuthContext.mount Sample.fresh) false in
  let out := SignUp.handleSubmit "a@x.com" "short" "short"
               (Replied Sample.issued) f in
  sent (AuthContext.world (SignUp.auth (snd out))) = [] ∧
  toasts (AuthContext.world (SignUp.auth (snd out)))
    = [(ToastError, JStr "Password must be at least 8 characters long")].
Proof. repeat split. Qed.

(** ** Calls in general *)

Lemma response_rejected_sent (A : Type) (err : AxiosError) (w : World) :
  sent (snd (@Api.response_rejected A err w)) = sent w.
Proof.
  unfold Api.response_rejected. simpl.
  destruct (response err) as [r|]; [|done].
  destruct (status r =? 401); [|done].
  destruct (negb (Api.isAuthEndpoint err)); [|done].
  simpl. by destruct (negb (String.eqb (pathname w) "/login")).
Qed.

(** Every call puts exactly one request on the wire: the configuration as
    the request interceptor left it. *)
Lemma request_sent (c : Config) (reply : Reply) (w : World) :
  sent (snd (Api.request c reply w))
  = (sent w ++ [Api.request_interceptor w c])%list.
Proof.
  unfold Api.request. destruct reply as [|r].
  - by rewrite response_rejected_sent.
  - destruct (Api.validateStatus (status r)).
    + reflexivity.
    + by rewrite response_rejected_sent.
Qed.

(** A fulfilled call changes nothing else. *)
Lemma request_fulfilled (c : Config) (reply : Reply) (w w' : World)
    (r : Response) :
  Api.request c reply w = (Fulfilled r, w') →
  Api.accepted reply = Some r ∧ w' = transmit (Api.request_interceptor w c) w.
Proof.
  unfold Api.request, Api.accepted. destruct reply as [|r0].
  - unfold Api.response_rejected. intros [=].
  - destruct (Api.validateStatus (status r0)).
    + unfold Api.response_fulfilled, ret. intros [= -> <-]. done.
    + unfold Api.response_rejected. intros [=].
Qed.

Lemma request_rejected (c : Config) (reply : Reply) (w w' : World)
    (e : Thrown) :
  Api.request c reply w = (Rejected e, w') → Api.accepted reply = None.
Proof.
  unfold Api.request, Api.accepted. destruct reply as [|r0]; [done|].
  destruct (Api.validateStatus (status r0)); [|done].
  unfold Api.response_fulfilled, ret. intros [=].
Qed.

(** Notices are only ever added. *)
Lemma request_toasts (c : Config) (reply : Reply) (w : World) :
  toasts w `prefix_of` toasts (snd (Api.request c reply w)).
Proof.
  assert (Hrej : ∀ err w0,
    toasts w0 `prefix_of` toasts (snd (@Api.response_rejected Response err w0))).
  { intros err w0. unfold Api.response_rejected. simpl.
    destruct (response err) as [r0|]; [|done].
    destruct (status r0 =? 401); [|done].
    destruct (negb (Api.isAuthEndpoint err)); [|done].
    simpl. destruct (negb (String.eqb (pathname w0) "/login")); simpl;
      by eexists. }
  unfold Api.request. destruct reply as [|r0].
  - exact (Hrej _ (transmit (Api.request_interceptor w c) w)).
  - destruct (Api.validateStatus (status r0)); [done|].
    exact (Hrej _ (transmit (Api.request_interceptor w c) w)).
Qed.

(** Where the callback goes once the pair is stored. *)
Lemma fromConnect_target (fromConnect : option string) (w : World) :
  match fromConnect with
  | Some "true" => navigate "/github" w
  | _ => navigate "/" w
  end
  = navigate (if decide (fromConnect = Some "true") then "/github" else "/") w.
Proof.
  destruct (decide (fromConnect = Some "true")) as [->|Hne]; [reflexivity|].
  destruct fromConnect as [f|]; [|reflexivity].
  assert (Hf : f ≠ "true") by congruence. clear Hne.
  do 5 (destruct f as [|[[] [] [] [] [] [] [] []] f]; try reflexivity).
  by destruct Hf.
Qed.

(** ** The session store *)












(** The OAuth redirect arriving in a fresh browser: the route stores the
    pair and the provider, whose effect runs after the route's, sets the
    flag. *)
Example callback_arrival_sets_flag :
  let s := Session.step
             (Session.LoadCallback (Some "T1") (Some "R1") None
                "http://localhost:5173/github/callback?access=T1&refresh=R1")
             (AuthContext.mount Sample.fresh) in
  getItem "access" (AuthContext.world s) = Some "T1" ∧
  getItem "refresh" (AuthContext.world s) = Some "R1" ∧
  pathname (AuthContext.world s) = "/" ∧
  AuthContext.isAuthenticated s = true.
Proof. repeat split. Qed.

(** The reload the 401 handler asks for puts the flag right again. *)
Example reload_after_expiry_clears_flag :
  AuthContext.isAuthenticated
    (Session.step Session.Load
       (Session.run Sample.expiry_after_login (AuthContext.mount Sample.fresh)))
  = false.
Proof. reflexivity. Qed.

(** ** The imported repositories page *)

Lemma fetchImportedRepos_sent (reply : Reply) (s : ImportedRepos.State) :
  sent (ImportedRepos.world (snd (ImportedRepos.fetchImportedRepos reply s)))
  = (sent (ImportedRepos.world s) ++
     [Api.request_interceptor (ImportedRepos.world s)
        (mkConfig GET (Some "/api/repositories/") ∅ JUndefined)])%list.
Proof.
  unfold ImportedRepos.fetchImportedRepos. autounfold with monad calls.
  cbn -[Api.request].
  pose proof (request_sent (mkConfig GET (Some "/api/repositories/") ∅ JUndefined)
                reply (ImportedRepos.world s)) as Hs.
  destruct (Api.request _ reply (ImportedRepos.world s)) as [[r|e] w1];
    [destruct (data r)|]; simpl in *; exact Hs.
Qed.


(** The list on the page changes only by being replaced with what the
    backend returned for the listing request. *)
Lemma fetchImportedRepos_repositories (reply : Reply)
    (s : ImportedRepos.State) :
  ImportedRepos.repositories (snd (ImportedRepos.fetchImportedRepos reply s))
  = default (ImportedRepos.repositories s) (ImportedRepos.listing reply).
Proof.
  unfold ImportedRepos.fetchImportedRepos, ImportedRepos.listing,
    ImportedRepos.readable.
  autounfold with monad calls.
  cbn -[Api.request].
  destruct (Api.request _ reply (ImportedRepos.world s)) as [[r|e] w1] eqn:E.
  - apply request_fulfilled in E as [-> _].
    destruct (data r); reflexivity.
  - apply request_rejected in E as ->. reflexivity.
Qed.

(** X8. [handleSync] never writes a status: afterwards the page shows the list
    it showed before, or, when the sync call was fulfilled, the list the
    backend returned on the refresh. The in-flight mark of the repository
    is cleared. *)
Lemma handleSync_shows_backend_state (repoId : Json)
    (replySync replyList : Reply) (s : ImportedRepos.State) :
  let s' := snd (ImportedRepos.handleSync repoId replySync replyList s) in
  ImportedRepos.repositories s' =
    match ImportedRepos.readable replySync with
    | Some _ =>
        default (ImportedRepos.repositories s) (ImportedRepos.listing replyList)
    | None => ImportedRepos.repositories s
    end ∧
  ImportedRepos.syncing s'
    = <[toString repoId := false]> (ImportedRepos.syncing s).
Proof.
  unfold ImportedRepos.handleSync, ImportedRepos.readable.
  autounfold with monad calls.
  cbn -[Api.request ImportedRepos.fetchImportedRepos].
  destruct (Api.request _ replySync (ImportedRepos.world s))
    as [[r|e] w1] eqn:E.
  - apply request_fulfilled in E as [-> _].
    destruct (data r) eqn:Ed; cbn -[ImportedRepos.fetchImportedRepos];
      try (split; reflexivity);
      match goal with
      | |- context [ImportedRepos.fetchImportedRepos replyList ?x] =>
          pose proof (fetchImportedRepos_repositories replyList x) as Hf;
          destruct (ImportedRepos.fetchImportedRepos replyList x)
            as [[u|e2] s2]
      end; simpl in *; split; done.
  - apply request_rejected in E as ->. split; reflexivity.
Qed.





(** The same removal accepted: the record is gone. *)
Example confirmed_delete_accepted :
  let sys' := Removal.deleteRepository (JNum 42) true
                (Replied Sample.no_content) (Replied Sample.empty_list)
                Sample.one_repository in
  Removal.store sys' = ∅ ∧
  ImportedRepos.repositories (Removal.page sys') = JArr [].
Proof. split; [by apply map_eq; intros k; vm_compute|reflexivity]. Qed.

(** ** The connected accounts page *)

Lemma request_interceptor_body (w : World) (c : Config) :
  body (Api.request_interceptor w c) = body c.
Proof.
  unfold Api.request_interceptor.
  destruct (negb (Api.isPublicEndpoint c)); [|done].
  destruct (getItem "access" w) as [[|a t]|]; done.
Qed.

Lemma labels_sent_grow (w w' : World) (c : Config) :
  sent w' = (sent w ++ [c])%list →
  ConnectedAccounts.labels_sent w' =
    (ConnectedAccounts.labels_sent w ++
     (if decide (url c = Some "/api/auth/update-account-label/")
      then [field "label" (body c)] else []))%list.
Proof.
  intros H. unfold ConnectedAccounts.labels_sent. rewrite H, omap_app. simpl.
  by destruct (decide (url c = Some "/api/auth/update-account-label/")).
Qed.

Lemma fetchConnectedAccounts_effect (reply : Reply)
    (s : ConnectedAccounts.State) :
  let s' := snd (ConnectedAccounts.fetchConnectedAccounts reply s) in
  ConnectedAccounts.labelValue s' = ConnectedAccounts.labelValue s ∧
  ConnectedAccounts.labels_sent (ConnectedAccounts.world s')
    = ConnectedAccounts.labels_sent (ConnectedAccounts.world s).
Proof.
  unfold ConnectedAccounts.fetchConnectedAccounts. autounfold with monad calls.
  cbn -[Api.request].
  set (g := mkConfig GET (Some "/api/auth/connected-accounts/") ∅ JUndefined).
  pose proof (request_sent g reply (ConnectedAccounts.world s)) as Hs.
  apply labels_sent_grow in Hs.
  rewrite request_interceptor_url in Hs. simpl in Hs.
  rewrite app_nil_r in Hs.
  destruct (Api.request g reply (ConnectedAccounts.world s)) as [[r|e] w1];
    simpl in *; split; done.
Qed.

Lemma saveLabel_effect (provider uid : Json) (replySave replyList : Reply)
    (s : ConnectedAccounts.State) :
  let s' := snd (ConnectedAccounts.saveLabel provider uid replySave replyList s) in
  ConnectedAccounts.labelValue s' = ConnectedAccounts.labelValue s ∧
  ConnectedAccounts.labels_sent (ConnectedAccounts.world s')
    = (ConnectedAccounts.labels_sent (ConnectedAccounts.world s) ++
       [ConnectedAccounts.labelValue s])%list.
Proof.
  unfold ConnectedAccounts.saveLabel. autounfold with monad calls.
  cbn -[Api.request ConnectedAccounts.fetchConnectedAccounts].
  set (c := mkConfig POST (Some "/api/auth/update-account-label/") ∅ _).
  pose proof (request_sent c replySave (ConnectedAccounts.world s)) as Hs.
  apply labels_sent_grow in Hs.
  rewrite request_interceptor_url, request_interceptor_body in Hs.
  simpl in Hs.
  destruct (Api.request c replySave (ConnectedAccounts.world s))
    as [[r|e] w1]; simpl in Hs.
  - match goal with
    | |- context [ConnectedAccounts.fetchConnectedAccounts replyList ?x] =>
        set (s1 := x)
    end.
    destruct (fetchConnectedAccounts_effect replyList s1) as [Hl Hw].
    destruct (ConnectedAccounts.fetchConnectedAccounts replyList s1)
      as [[u0|e0] s2]; simpl in *.
    + split; [exact Hl|]. rewrite Hw. exact Hs.
    + split; [exact Hl|].
      unfold ConnectedAccounts.labels_sent in *. simpl in *.
      rewrite Hw. exact Hs.
  - simpl. split; done.
Qed.

Lemma handle_keeps_limit (e : ConnectedAccounts.Event)
    (s : ConnectedAccounts.State) :
  ConnectedAccounts.within_limit e →
  ConnectedAccounts.short (ConnectedAccounts.labelValue s) →
  Forall ConnectedAccounts.short
    (ConnectedAccounts.labels_sent (ConnectedAccounts.world s)) →
  ConnectedAccounts.short
    (ConnectedAccounts.labelValue (ConnectedAccounts.handle e s)) ∧
  Forall ConnectedAccounts.short
    (ConnectedAccounts.labels_sent
       (ConnectedAccounts.world (ConnectedAccounts.handle e s))).
Proof.
  intros He Hv Hw.
  assert (H0 : ConnectedAccounts.short (JStr EmptyString)).
  { exists EmptyString. split; [done|]. simpl. lia. }
  destruct e as [p u l | v | | p u r1 r2 | r]; simpl in *.
  - split; [|exact Hw]. unfold Js.or.
    destruct He as [-> | [-> | [t [-> Ht]]]]; simpl; try exact H0.
    destruct t; [exact H0|]. by exists (String a t).
  - split; [|exact Hw]. by exists v.
  - split; [exact H0 | exact Hw].
  - destruct (saveLabel_effect p u r1 r2 s) as [Hl Hs]. rewrite Hl, Hs.
    split; [exact Hv|]. apply Forall_app. split; [exact Hw|].
    by apply Forall_singleton.
  - destruct (fetchConnectedAccounts_effect r s) as [Hl Hs]. rewrite Hl, Hs.
    by split.
Qed.

(** C8 (amended). [saveLabel] sends the edit buffer as it stands and makes
    no length check of its own. The buffer holds what the label input last
    reported, which its [maxLength] keeps within 100 characters, or the
    label the edit started from. So as long as every edit starts from a
    label that is absent or has at most 100 characters, every label sent
    has at most 100 characters. *)
Theorem labels_sent_within_limit (es : list ConnectedAccounts.Event)
    (s : ConnectedAccounts.State) :
  Forall ConnectedAccounts.within_limit es →
  ConnectedAccounts.short (ConnectedAccounts.labelValue s) →
  Forall ConnectedAccounts.short
    (ConnectedAccounts.labels_sent (ConnectedAccounts.world s)) →
  Forall ConnectedAccounts.short
    (ConnectedAccounts.labels_sent
       (ConnectedAccounts.world (ConnectedAccounts.handle_all es s))).
Proof.
  intros Hes. revert s.
  induction Hes as [|e es He Hes IH]; intros s Hv Hw; simpl.
  - exact Hw.
  - destruct (handle_keeps_limit e s He Hv Hw) as [Hv' Hw'].
    by apply IH.
Qed.

(** Relabelling an account from Work to Personal. *)
Lemma labels_sent_within_limit_witness :
  Forall ConnectedAccounts.within_limit Sample.short_edit ∧
  Forall ConnectedAccounts.short
    (ConnectedAccounts.labels_sent
       (ConnectedAccounts.world
          (ConnectedAccounts.handle_all Sample.short_edit
             (ConnectedAccounts.initial Sample.signed_in)))).
Proof.
  assert (Hes : Forall ConnectedAccounts.within_limit Sample.short_edit).
  { unfold Sample.short_edit.
    constructor; [exact I|].
    constructor.
    { right; right. exists "Work". split; [reflexivity|].
      unfold ConnectedAccounts.maxLength. simpl. lia. }
    constructor.
    { unfold ConnectedAccounts.within_limit, ConnectedAccounts.maxLength.
      simpl. lia. }
    constructor; [exact I|]. constructor. }
  split; [exact Hes|].
  apply (labels_sent_within_limit Sample.short_edit
           (ConnectedAccounts.initial Sample.signed_in) Hes).
  - exists EmptyString. split; [reflexivity|]. simpl. lia.
  - constructor.
Defined.

(** C8, as first stated, fails for an account whose stored label has 101
    characters: opening the editor and saving sends that label. *)
Lemma long_label_is_sent :
  ConnectedAccounts.labels_sent
    (ConnectedAccounts.world
       (ConnectedAccounts.handle_all Sample.long_edit
          (ConnectedAccounts.initial Sample.signed_in)))
    = [JStr Sample.long_label] ∧
  strlen (JStr Sample.long_label) = Some 101%nat ∧
  (ConnectedAccounts.maxLength < 101)%nat.
Proof.
  split; [vm_compute; reflexivity|]. split; [reflexivity|].
  unfold ConnectedAccounts.maxLength. lia.
Qed.

(** ** The sync status machine *)

Lemma step_marked (r : SyncTracker.ImportedRepository) (e : SyncTracker.Event) :
  SyncTracker.marked r → SyncTracker.marked (SyncTracker.step r e).
Proof.
  unfold SyncTracker.marked, SyncTracker.step.
  destruct (SyncTracker.syncStatus r) eqn:E, e; simpl; rewrite ?E; eauto.
Qed.

Lemma run_marked (es : list SyncTracker.Event)
    (r : SyncTracker.ImportedRepository) :
  SyncTracker.marked r → SyncTracker.marked (SyncTracker.run es r).
Proof.
  revert r. induction es as [|e es IH]; intros r Hr; simpl; [done|].
  apply IH. by apply step_marked.
Qed.

(** C6. From import onwards the status of a repository moves only from
    pending to syncing and from syncing to success or to failed: whenever
    an event changes the status, the change is one of these three; a change
    to success comes from a completed sync and records its time in
    lastSyncedAt, a change to failed comes from a failed sync and records
    its error in lastSyncError; and at every moment a repository in status
    success has lastSyncedAt set and one in status failed has lastSyncError
    set. Both full paths are taken by the corresponding events. *)
Theorem sync_status_transitions (i : Z) (o n b : string) (p : bool)
    (es : list SyncTracker.Event) (e : SyncTracker.Event) :
  let r := SyncTracker.run es (SyncTracker.importRepository i o n b p) in
  let r' := SyncTracker.step r e in
  SyncTracker.syncStatus (SyncTracker.importRepository i o n b p)
    = SyncTracker.Pending ∧
  SyncTracker.marked r ∧
  (SyncTracker.syncStatus r' ≠ SyncTracker.syncStatus r →
     SyncTracker.allowed (SyncTracker.syncStatus r) (SyncTracker.syncStatus r')
       = true ∧
     (SyncTracker.syncStatus r' = SyncTracker.Syncing →
        e = SyncTracker.SyncRequested) ∧
     (SyncTracker.syncStatus r' = SyncTracker.Success →
        ∃ t, e = SyncTracker.SyncCompleted t ∧
             SyncTracker.lastSyncedAt r' = Some t) ∧
     (SyncTracker.syncStatus r' = SyncTracker.Failed →
        ∃ err, e = SyncTracker.SyncFailed err ∧
               SyncTracker.lastSyncError r' = Some err)) ∧
  (∀ t,
     SyncTracker.syncStatus
       (SyncTracker.run [SyncTracker.SyncRequested; SyncTracker.SyncCompleted t]
          (SyncTracker.importRepository i o n b p)) = SyncTracker.Success) ∧
  (∀ err,
     SyncTracker.syncStatus
       (SyncTracker.run [SyncTracker.SyncRequested; SyncTracker.SyncFailed err]
          (SyncTracker.importRepository i o n b p)) = SyncTracker.Failed).
Proof.
  intros r r'. split; [reflexivity|]. split.
  { subst r. apply run_marked. simpl. done. }
  split; [|split; reflexivity].
  subst r'. unfold SyncTracker.step.
  destruct (SyncTracker.syncStatus r) eqn:E, e; simpl; rewrite ?E;
    intros Hne; try done.
  all: split; [reflexivity|].
  all: split; [intros; first [reflexivity | discriminate]|].
  all: split; intros Hs; first [discriminate | by eexists].
Qed.

(** The scenario of the specification: repository 42 is imported, a sync
    is requested and the backend reports failure. *)
Example import_sync_failure :
  let r0 := SyncTracker.importRepository 42 "octocat" "hello" "main" false in
  let r1 := SyncTracker.step r0 SyncTracker.SyncRequested in
  let r2 := SyncTracker.step r1 (SyncTracker.SyncFailed "clone failed") in
  SyncTracker.syncStatus r0 = SyncTracker.Pending ∧
  SyncTracker.syncStatus r1 = SyncTracker.Syncing ∧
  SyncTracker.syncStatus r2 = SyncTracker.Failed ∧
  SyncTracker.lastSyncError r2 = Some "clone failed".
Proof. repeat split. Qed.

(** The page itself never computes a status: it shows the one the backend
    returned, and colours the four it knows. *)
Lemma getStatusColor_known (st : Json) :
  ImportedRepos.getStatusColor st ≠ "bg-gray-100 text-gray-800" ↔
  st = JStr "success" ∨ st = JStr "failed" ∨ st = JStr "syncing" ∨
  st = JStr "pending".
Proof.
  split.
  - intros H. destruct st as [| | | |t| |]; try done.
    unfold ImportedRepos.getStatusColor in H.
    repeat (match type of H with
            | context [match ?x with _ => _ end] => destruct x; try done
            end).
    all: tauto.
  - intros [-> | [-> | [-> | ->]]]; done.
Qed.

(* ===================================================================== *)
(** * Further properties of the modules *)
(* ===================================================================== *)

(** ** The interceptors, beyond the session rules *)

(** X1. A call that fails with anything but a 401 (no response at all, or a
    status outside 200..299 other than 401) is rejected with its error and
    leaves the session alone: storage, notices and location are as before,
    whether or not the target is public. *)
Theorem other_failures_leave_session (c : Config) (reply : Reply) (w : World) :
  Expiry.plain_failure reply →
  let out := Api.request c reply w in
  fst out
    = Rejected (AxiosRejection
                  (mkError (Api.reply_response reply)
                     (Some (Api.request_interceptor w c)))) ∧
  localStorage (snd out) = localStorage w ∧
  toasts (snd out) = toasts w ∧
  pathname (snd out) = pathname w ∧
  page_loads (snd out) = page_loads w.
Proof.
  intros H out. subst out. unfold Api.request, Api.response_rejected.
  destruct reply as [|r]; simpl in *; [done|].
  destruct H as [Hv Hs]. rewrite Hv. simpl.
  assert (Hne : (status r =? 401) = false) by (by apply Z.eqb_neq).
  rewrite Hne. done.
Qed.

(** A server error on a protected listing while a pair is stored. *)
Lemma other_failures_leave_session_witness :
  Expiry.plain_failure (Replied (mkResponse 500 JUndefined)) ∧
  localStorage
    (snd (Api.request Sample.get_submissions
            (Replied (mkResponse 500 JUndefined)) Sample.signed_in))
    = localStorage Sample.signed_in.
Proof.
  assert (H : Expiry.plain_failure (Replied (mkResponse 500 JUndefined))).
  { split; [reflexivity | discriminate]. }
  split; [exact H|].
  pose proof (other_failures_leave_session Sample.get_submissions
                (Replied (mkResponse 500 JUndefined)) Sample.signed_in H) as P.
  cbv zeta in P. exact (proj1 (proj2 P)).
Defined.

(** X2. The request interceptor changes nothing of a call but its
    [Authorization] header: method, target, body and every other header
    are as the caller set them; and running it twice is the same as running
    it once. *)
Theorem interceptor_touches_only_authorization (w : World) (c : Config)
    (k : string) :
  method (Api.request_interceptor w c) = method c ∧
  url (Api.request_interceptor w c) = url c ∧
  body (Api.request_interceptor w c) = body c ∧
  (k ≠ "Authorization" →
     headers (Api.request_interceptor w c) !! k = headers c !! k) ∧
  Api.request_interceptor w (Api.request_interceptor w c)
    = Api.request_interceptor w c.
Proof.
  split; [|split; [apply request_interceptor_url|
           split; [apply request_interceptor_body|]]].
  { unfold Api.request_interceptor.
    destruct (negb (Api.isPublicEndpoint c)); [|done].
    by destruct (getItem "access" w) as [[|a t]|]. }
  split.
  - intros Hk. unfold Api.request_interceptor.
    destruct (negb (Api.isPublicEndpoint c)); [|done].
    destruct (getItem "access" w) as [[|a t]|]; try done.
    simpl. by rewrite lookup_insert_ne.
  - unfold Api.request_interceptor at 1.
    rewrite request_interceptor_public.
    unfold Api.request_interceptor.
    destruct (negb (Api.isPublicEndpoint c)); [|done].
    destruct (getItem "access" w) as [[|a t]|]; try done.
    simpl. by rewrite insert_insert_eq.
Qed.

Lemma expired_step (e : AxiosError) (w : World) :
  Expiry.expired e →
  snd (@Api.response_rejected Response e w) =
    let w3 := toast ToastError
                (JStr "Your session has expired. Please login again.")
                (removeItem "refresh" (removeItem "access" w)) in
    if String.eqb (pathname w) "/login" then w3 else set_href "/login" w3.
Proof.
  intros [[r [Hr Hs]] Hp].
  rewrite (response_rejected_401 Response e r w Hr Hs). rewrite Hp.
  reflexivity.
Qed.

Lemma delete_pair_again (m : gmap string string) :
  delete "refresh" (delete "access" (delete "refresh" (delete "access" m)))
  = delete "refresh" (delete "access" m).
Proof.
  apply map_eq. intros k.
  destruct (decide (k = "refresh")) as [->|Hr];
    [by rewrite !lookup_delete_eq|].
  rewrite !(lookup_delete_ne _ "refresh") by done.
  destruct (decide (k = "access")) as [->|Ha];
    [by rewrite !lookup_delete_eq|].
  by rewrite !lookup_delete_ne by done.
Qed.

(** One run of the handler for an expired session, in the document on
    display. *)
Lemma expired_in_document (e : AxiosError) (w : World) :
  Expiry.expired e →
  snd (Expiry.in_document (@Api.response_rejected Response e) w) =
    mkWorld (delete "refresh" (delete "access" (localStorage w)))
      (toasts w ++
       [(ToastError, JStr "Your session has expired. Please login again.")])
      (pathname w)
      (if String.eqb (pathname w) "/login" then page_loads w
       else Datatypes.S (page_loads w))
      (sent w).
Proof.
  intros He. pose proof (expired_step e w He) as Hs. cbv zeta in Hs.
  unfold Expiry.in_document.
  destruct (@Api.response_rejected Response e w) as [r w1]. simpl in *.
  subst w1. by destruct (String.eqb (pathname w) "/login").
Qed.

Lemma reject_all_cons (e : AxiosError) (errs : list AxiosError) (w : World) :
  Expiry.reject_all (e :: errs) w
  = Expiry.reject_all errs
      (snd (Expiry.in_document (@Api.response_rejected Response e) w)).
Proof. reflexivity. Qed.

Lemma expired_again (errs : list AxiosError) (w : World)
    (m : gmap string string) :
  Forall Expiry.expired errs →
  localStorage w = delete "refresh" (delete "access" m) →
  let w' := Expiry.reject_all errs w in
  localStorage w' = delete "refresh" (delete "access" m) ∧
  pathname w' = pathname w ∧
  page_loads w' =
    (if String.eqb (pathname w) "/login" then page_loads w
     else page_loads w + length errs)%nat ∧
  toasts w' =
    (toasts w ++
     replicate (length errs)
       (ToastError, JStr "Your session has expired. Please login again."))%list.
Proof.
  intros Hes. revert w.
  induction Hes as [|e errs He Hes IH]; intros w Hl.
  - simpl. rewrite app_nil_r, Nat.add_0_r.
    by destruct (String.eqb (pathname w) "/login").
  - rewrite reject_all_cons, (expired_in_document e w He), Hl,
      delete_pair_again. cbv zeta.
    match goal with
    | |- context [Expiry.reject_all errs ?x] =>
        destruct (IH x eq_refl) as (H1 & H2 & H3 & H4)
    end.
    simpl in H2, H3, H4.
    split; [exact H1|]. split; [exact H2|]. split.
    + rewrite H3. simpl.
      destruct (String.eqb (pathname w) "/login"); [done|lia].
    + rewrite H4. simpl. by rewrite <- app_assoc.
Qed.

(** X3. When several calls in flight are answered with 401 from targets
    that are not public, the rejection handler runs once per call in the
    document on display. Every run shows the session-expired notice, and
    the tokens are removed as by the first run. The guard on the pathname
    stops no later run: unless the document on display is the login page
    itself, every run assigns [window.location.href] again, because the
    pathname is that of the document on display until the other one is
    loaded. *)
Theorem every_expiry_assigns_location (e : AxiosError)
    (errs : list AxiosError) (w : World) :
  Forall Expiry.expired (e :: errs) →
  let w' := Expiry.reject_all (e :: errs) w in
  localStorage w' = delete "refresh" (delete "access" (localStorage w)) ∧
  pathname w' = pathname w ∧
  page_loads w' =
    (if String.eqb (pathname w) "/login" then page_loads w
     else page_loads w + Datatypes.S (length errs))%nat ∧
  toasts w' =
    (toasts w ++
     replicate (Datatypes.S (length errs))
       (ToastError, JStr "Your session has expired. Please login again."))%list.
Proof.
  intros Hall w'. subst w'. inversion Hall as [|? ? He Hes]; subst.
  rewrite reject_all_cons, (expired_in_document e w He).
  match goal with
  | |- context [Expiry.reject_all errs ?x] =>
      destruct (expired_again errs x (localStorage w) Hes eq_refl)
        as (H1 & H2 & H3 & H4)
  end.
  simpl in H2, H3, H4.
  split; [exact H1|]. split; [exact H2|]. split.
  - rewrite H3. destruct (String.eqb (pathname w) "/login"); [done|lia].
  - rewrite H4. simpl. by rewrite <- app_assoc.
Qed.

(** Three protected calls answered with 401 while the user is on the home
    page: the location is assigned three times. *)
Lemma every_expiry_assigns_location_witness :
  Forall Expiry.expired
    (replicate 3
       (mkError (Some Sample.unauthorized) (Some Sample.get_submissions))) ∧
  page_loads
    (Expiry.reject_all
       (replicate 3
          (mkError (Some Sample.unauthorized) (Some Sample.get_submissions)))
       Sample.signed_in) = 3%nat.
Proof.
  assert (He : Expiry.expired
                 (mkError (Some Sample.unauthorized)
                    (Some Sample.get_submissions))).
  { split; [|reflexivity]. exists Sample.unauthorized. split; reflexivity. }
  assert (Hall : Forall Expiry.expired
                   (replicate 3
                      (mkError (Some Sample.unauthorized)
                         (Some Sample.get_submissions)))).
  { simpl. apply Forall_cons_2; [exact He|].
    apply Forall_cons_2; [exact He|].
    apply Forall_cons_2; [exact He|]. apply Forall_nil_2. }
  split; [exact Hall|].
  pose proof (every_expiry_assigns_location _ _ Sample.signed_in Hall) as P.
  cbv zeta in P. destruct P as (_ & _ & P & _). exact P.
Defined.

(** ** Sessions from start to end *)

(** X4. After [login], [loginWithGoogle] or [signup] has succeeded, every
    later call to a target that is not public carries the access token of
    the reply as [Bearer] credential, as long as its string form is not
    empty. (A reply without an access field stores the string
    [undefined], which is then sent.) *)
Theorem fresh_token_is_sent (email password token password1 password2 : Json)
    (reply : Reply) (r : Response) (s : AuthContext.State) (c : Config) :
  AuthContext.grants reply = Some r →
  toString (field "access" (data r)) ≠ EmptyString →
  Api.isPublicEndpoint c = false →
  let T := toString (field "access" (data r)) in
  headers (Api.request_interceptor
             (AuthContext.world (snd (AuthContext.login email password reply s)))
             c) !! "Authorization" = Some ("Bearer " +:+ T) ∧
  headers (Api.request_interceptor
             (AuthContext.world
                (snd (AuthContext.loginWithGoogle token reply s)))
             c) !! "Authorization" = Some ("Bearer " +:+ T) ∧
  headers (Api.request_interceptor
             (AuthContext.world
                (snd (AuthContext.signup email password1 password2 reply s)))
             c) !! "Authorization" = Some ("Bearer " +:+ T).
Proof.
  intros Hg HT Hc T.
  assert (Hx : ∀ u payload,
    Api.some_includes (Some u) = true →
    headers (Api.request_interceptor
               (AuthContext.world (snd (AuthContext.exchange u payload reply s)))
               c) !! "Authorization" = Some ("Bearer " +:+ T)).
  { intros u payload Hu. rewrite exchange_outcome by exact Hu. cbv zeta.
    rewrite Hg. simpl. unfold Api.request_interceptor. rewrite Hc. simpl.
    unfold getItem. simpl. rewrite lookup_insert_ne by done.
    rewrite lookup_insert_eq. fold T.
    destruct T as [|a t] eqn:ET; [done|]. simpl. apply lookup_insert_eq. }
  split; [by apply Hx|]. split; by apply Hx.
Qed.

(** The scenario of the specification: login answered with the pair T1, R1,
    then a protected call. *)
Lemma fresh_token_is_sent_witness :
  AuthContext.grants (Replied Sample.issued) = Some Sample.issued ∧
  headers (Api.request_interceptor
             (AuthContext.world
                (snd (AuthContext.login (JStr "a@x.com") (JStr "secret1")
                        (Replied Sample.issued)
                        (AuthContext.mount Sample.fresh))))
             Sample.get_submissions) !! "Authorization" = Some "Bearer T1".
Proof.
  split; [reflexivity|].
  assert (HT : toString (field "access" (data Sample.issued)) ≠ EmptyString)
    by discriminate.
  pose proof (fresh_token_is_sent (JStr "a@x.com") (JStr "secret1") JNull JNull
                JNull (Replied Sample.issued) Sample.issued
                (AuthContext.mount Sample.fresh) Sample.get_submissions
                eq_refl HT eq_refl) as P.
  cbv zeta in P. exact (proj1 P).
Defined.

(** A reply that is accepted but names no access token. *)
Example missing_access_field_sends_undefined :
  let s := snd (AuthContext.login (JStr "a@x.com") (JStr "secret1")
                  (Replied (mkResponse 200 (JObj [("detail", JStr "ok")])))
                  (AuthContext.mount Sample.fresh)) in
  getItem "access" (AuthContext.world s) = Some "undefined" ∧
  AuthContext.user s = true ∧
  headers (Api.request_interceptor (AuthContext.world s)
             Sample.get_submissions) !! "Authorization"
    = Some "Bearer undefined".
Proof. repeat split. Qed.

(** X5. After the logout button, storage is empty, the flag is clear, the
    browser is at the login page with the logged-out notice shown, every
    later call leaves the request interceptor exactly as it came (no
    credential is attached), and mounting the provider again gives the same
    signed-out state. *)
Theorem after_logout_no_credential (s : AuthContext.State) (c : Config) :
  let s' := LogoutButton.handleLogout s in
  localStorage (AuthContext.world s') = ∅ ∧
  AuthContext.isAuthenticated s' = false ∧
  pathname (AuthContext.world s') = "/login" ∧
  toasts (AuthContext.world s') =
    (toasts (AuthContext.world s) ++
     [(ToastSuccess, JStr "Logged out successfully")])%list ∧
  sent (AuthContext.world s') = sent (AuthContext.world s) ∧
  Api.request_interceptor (AuthContext.world s') c = c ∧
  AuthContext.mount (AuthContext.world s') = s'.
Proof.
  intros s'. subst s'. unfold LogoutButton.handleLogout, AuthContext.logout.
  do 5 (split; [reflexivity|]). split.
  - unfold Api.request_interceptor, getItem. simpl. rewrite lookup_empty.
    by destruct (negb (Api.isPublicEndpoint c)).
  - unfold AuthContext.mount, AuthContext.checkAuth, AuthContext.access_flag,
      getItem. simpl. by rewrite lookup_empty.
Qed.

(** ** The callback route *)

(** X6. The callback route stores both tokens or none. With a non-empty
    access and a non-empty refresh parameter it stores exactly those two,
    goes to the GitHub page for a connect flow and home otherwise, and the
    session survives a reload: the provider mounts authenticated and calls
    to targets that are not public carry the access parameter. With either
    parameter missing or empty it leaves storage alone and goes to the
    GitHub page if the address mentions the connect process, to the login
    page if not. It never shows a notice and never sends anything. *)
Theorem callback_stores_pair_or_nothing
    (access refresh fromConnect : option string) (href : string) (w : World) :
  let w' := App.GitHubCallback access refresh fromConnect href w in
  toasts w' = toasts w ∧ sent w' = sent w ∧ page_loads w' = page_loads w ∧
  (∀ a r, access = Some a → refresh = Some r →
          a ≠ EmptyString → r ≠ EmptyString →
     localStorage w' = <["refresh" := r]> (<["access" := a]> (localStorage w)) ∧
     pathname w' = (if decide (fromConnect = Some "true") then "/github" else "/") ∧
     AuthContext.isAuthenticated (AuthContext.mount w') = true ∧
     ∀ c, Api.isPublicEndpoint c = false →
          headers (Api.request_interceptor w' c) !! "Authorization"
            = Some ("Bearer " +:+ a)) ∧
  (access = None ∨ access = Some EmptyString ∨
   refresh = None ∨ refresh = Some EmptyString →
     localStorage w' = localStorage w ∧
     pathname w' =
       (if includes href "process=connect" then "/github" else "/login")).
Proof.
  intros w'. subst w'. unfold App.GitHubCallback.
  destruct access as [[|a ta]|], refresh as [[|r tr]|];
    try (destruct (includes href "process=connect");
         (do 3 (split; [reflexivity|])); (split; [by intros ? ? [= <-] [= <-]|]);
         by intros _).
  rewrite fromConnect_target.
  do 3 (split; [reflexivity|]). split.
  - intros a0 r0 [= <-] [= <-] _ _.
    split; [reflexivity|]. split; [reflexivity|].
    assert (Hget : ∀ p, getItem "access"
                          (navigate p
                             (setItem "refresh" (JStr (String r tr))
                                (setItem "access" (JStr (String a ta)) w)))
                        = Some (String a ta)).
    { intros p. unfold getItem. simpl. rewrite lookup_insert_ne by done.
      apply lookup_insert_eq. }
    split.
    + unfold AuthContext.isAuthenticated, AuthContext.mount,
        AuthContext.checkAuth, AuthContext.access_flag. simpl AuthContext.user.
      simpl AuthContext.world. by rewrite Hget.
    + intros c Hc. unfold Api.request_interceptor. rewrite Hc, Hget. simpl.
      apply lookup_insert_eq.
  - intros [H|[H|[H|H]]]; discriminate.
Qed.

(** ** The sign-up form, its notices *)

(** X7. The notice a failed sign-up shows is the first non-empty value
    among the first e-mail error, the first password error, the first
    general error and the error field of the response body, and a fixed
    sentence when none of them is there; so the notice is never empty, and
    a failure without a response (the network, or a reply with no body to
    read) shows the fixed sentence. *)
Theorem signup_notice_never_empty (err : Thrown) :
  let d := error_data err in
  truthy (SignUp.errorMessage err) = true ∧
  List.find truthy
    [ first (field "email" d); first (field "password1" d);
      first (field "non_field_errors" d); field "error" d;
      JStr "Signup failed. Please try again." ]
    = Some (SignUp.errorMessage err) ∧
  (response_of err = None →
     SignUp.errorMessage err = JStr "Signup failed. Please try again.").
Proof.
  intros d. unfold SignUp.errorMessage. fold d. unfold Js.or. simpl.
  split; [|split].
  - destruct (truthy (first (field "email" d))) eqn:H1; [done|].
    destruct (truthy (first (field "password1" d))) eqn:H2; [done|].
    destruct (truthy (first (field "non_field_errors" d))) eqn:H3; [done|].
    destruct (truthy (field "error" d)) eqn:H4; done.
  - destruct (truthy (first (field "email" d))); [done|].
    destruct (truthy (first (field "password1" d))); [done|].
    destruct (truthy (first (field "non_field_errors" d))); [done|].
    destruct (truthy (field "error" d)); done.
  - intros Hn. subst d. unfold error_data. rewrite Hn. reflexivity.
Qed.

(** ** The imported repositories page, its list *)

(** X9. Refreshing the list sends one GET of the listing and always ends
    with the loading mark cleared. A readable reply replaces the list, by
    its [results] when the body has a non-empty such field and by the body
    itself otherwise (so both a page object and a plain array are taken),
    and shows no notice; any other outcome keeps the list and ends with the
    load-failure notice. The in-flight marks are not touched. *)
Theorem listing_refresh_outcome (reply : Reply) (s : ImportedRepos.State) :
  let out := ImportedRepos.fetchImportedRepos reply s in
  fst out = Fulfilled tt ∧
  ImportedRepos.loading (snd out) = false ∧
  ImportedRepos.syncing (snd out) = ImportedRepos.syncing s ∧
  sent (ImportedRepos.world (snd out))
    = (sent (ImportedRepos.world s) ++
       [Api.request_interceptor (ImportedRepos.world s)
          (mkConfig GET (Some "/api/repositories/") ∅ JUndefined)])%list ∧
  match ImportedRepos.readable reply with
  | Some d =>
      ImportedRepos.repositories (snd out)
        = (if truthy (field "results" d) then field "results" d else d) ∧
      toasts (ImportedRepos.world (snd out)) = toasts (ImportedRepos.world s)
  | None =>
      ImportedRepos.repositories (snd out) = ImportedRepos.repositories s ∧
      ∃ before,
        toasts (ImportedRepos.world (snd out))
          = (before ++
             [(ToastError, JStr "Failed to load imported repositories")])%list
  end.
Proof.
  intros out. subst out.
  pose proof (fetchImportedRepos_sent reply s) as Hsent.
  revert Hsent.
  unfold ImportedRepos.fetchImportedRepos, ImportedRepos.readable.
  autounfold with monad calls. cbn -[Api.request].
  destruct (Api.request _ reply (ImportedRepos.world s)) as [[r|e] w1] eqn:E.
  - apply request_fulfilled in E as [-> ->].
    destruct (data r) eqn:Ed; cbn; intros Hsent;
      (split; [reflexivity|]); (split; [reflexivity|]);
      (split; [reflexivity|]); (split; [exact Hsent|]);
      first [ by split | split; [reflexivity|]; by eexists ].
  - apply request_rejected in E as ->. cbn. intros Hsent.
    (split; [reflexivity|]); (split; [reflexivity|]);
      (split; [reflexivity|]); (split; [exact Hsent|]).
    split; [reflexivity|]. by eexists.
Qed.

(** ** The connected accounts page, unlinking and the editor *)

Lemma unlinks_sent_grow (w w' : World) (c : Config) :
  sent w' = (sent w ++ [c])%list →
  ConnectedAccounts.unlinks_sent w' =
    (ConnectedAccounts.unlinks_sent w ++
     (if decide (url c = Some "/api/auth/unlink-account/")
      then [body c] else []))%list.
Proof.
  intros H. unfold ConnectedAccounts.unlinks_sent. rewrite H, omap_app. simpl.
  by destruct (decide (url c = Some "/api/auth/unlink-account/")).
Qed.

Lemma fetchConnectedAccounts_frame (reply : Reply)
    (s : ConnectedAccounts.State) :
  let s' := snd (ConnectedAccounts.fetchConnectedAccounts reply s) in
  ConnectedAccounts.editingLabel s' = ConnectedAccounts.editingLabel s ∧
  ConnectedAccounts.unlinks_sent (ConnectedAccounts.world s')
    = ConnectedAccounts.unlinks_sent (ConnectedAccounts.world s) ∧
  toasts (ConnectedAccounts.world s)
    `prefix_of` toasts (ConnectedAccounts.world s').
Proof.
  unfold ConnectedAccounts.fetchConnectedAccounts. autounfold with monad calls.
  cbn -[Api.request].
  set (g := mkConfig GET (Some "/api/auth/connected-accounts/") ∅ JUndefined).
  pose proof (request_sent g reply (ConnectedAccounts.world s)) as Hs.
  apply unlinks_sent_grow in Hs.
  rewrite request_interceptor_url in Hs. simpl in Hs.
  rewrite app_nil_r in Hs.
  pose proof (request_toasts g reply (ConnectedAccounts.world s)) as Ht.
  destruct (Api.request g reply (ConnectedAccounts.world s)) as [[r|e] w1];
    simpl in *.
  - done.
  - split; [done|]. split; [done|]. destruct Ht as [more ->].
    eexists. by rewrite <- app_assoc.
Qed.

(** X10. Unlinking an account asks first. When the user declines, the page
    and the browser are exactly as they were. When the user confirms, one
    unlink request is sent, carrying that provider and uid; if it is
    accepted the disconnection is announced, and if it fails the list of
    accounts is kept and the notice shown last is the error field of the
    response body, or a fixed sentence when there is none. In no case is
    the label editor touched. *)
Theorem unlink_only_after_confirmation (provider uid : Json)
    (replyUnlink replyList : Reply) (s : ConnectedAccounts.State) :
  ConnectedAccounts.handleUnlink provider uid false replyUnlink replyList s
    = (Fulfilled tt, s) ∧
  (let s' := snd (ConnectedAccounts.handleUnlink provider uid true
                    replyUnlink replyList s) in
   ConnectedAccounts.unlinks_sent (ConnectedAccounts.world s')
     = (ConnectedAccounts.unlinks_sent (ConnectedAccounts.world s) ++
        [JObj [("provider", provider); ("uid", uid)]])%list ∧
   ConnectedAccounts.editingLabel s' = ConnectedAccounts.editingLabel s ∧
   ConnectedAccounts.labelValue s' = ConnectedAccounts.labelValue s ∧
   match Api.accepted replyUnlink with
   | Some _ =>
       (ToastSuccess,
        JStr (toString provider +:+ " account disconnected successfully"))
         ∈ toasts (ConnectedAccounts.world s')
   | None =>
       ConnectedAccounts.accounts s' = ConnectedAccounts.accounts s ∧
       ∃ before,
         toasts (ConnectedAccounts.world s')
           = (before ++
              [(ToastError,
                Js.or (field "error"
                         (match Api.reply_response replyUnlink with
                          | Some r => data r
                          | None => JUndefined
                          end))
                  (JStr "Failed to unlink account"))])%list
   end).
Proof.
  split; [reflexivity|].
  unfold ConnectedAccounts.handleUnlink. simpl negb. cbv iota.
  autounfold with monad calls.
  cbn -[Api.request ConnectedAccounts.fetchConnectedAccounts].
  set (c := mkConfig POST (Some "/api/auth/unlink-account/") ∅ _).
  pose proof (request_sent c replyUnlink (ConnectedAccounts.world s)) as Hs.
  apply unlinks_sent_grow in Hs.
  rewrite request_interceptor_url, request_interceptor_body in Hs.
  simpl in Hs.
  destruct (Api.request c replyUnlink (ConnectedAccounts.world s))
    as [[r|e] w1] eqn:E.
  - apply request_fulfilled in E as [Ha Hw]. rewrite Ha.
    match goal with
    | |- context [ConnectedAccounts.fetchConnectedAccounts replyList ?x] =>
        set (s1 := x)
    end.
    destruct (fetchConnectedAccounts_frame replyList s1) as (He & Hu & Ht).
    destruct (fetchConnectedAccounts_effect replyList s1) as [Hl _].
    assert (Hin : (ToastSuccess,
                   JStr (toString provider
                         +:+ " account disconnected successfully"))
                  ∈ toasts (ConnectedAccounts.world s1)).
    { subst s1. simpl. apply elem_of_app. right.
      by apply list_elem_of_singleton. }
    destruct Ht as [more Ht].
    destruct (ConnectedAccounts.fetchConnectedAccounts replyList s1)
      as [[u0|e0] s2]; simpl in *.
    + split; [by rewrite Hu|]. split; [done|]. split; [done|].
      rewrite Ht. apply elem_of_app. by left.
    + split; [unfold ConnectedAccounts.unlinks_sent in *; simpl; by rewrite Hu|].
      split; [done|]. split; [done|].
      rewrite Ht. apply elem_of_app. left. apply elem_of_app. by left.
  - unfold Api.request in E.
    assert (Hacc : Api.accepted replyUnlink = None ∧
                   error_data e
                   = match Api.reply_response replyUnlink with
                     | Some r => data r
                     | None => JUndefined
                     end).
    { unfold Api.accepted, Api.response_rejected in *.
      destruct replyUnlink as [|r0]; simpl in *.
      - by injection E as <- _.
      - destruct (Api.validateStatus (status r0)); [done|].
        by injection E as <- _. }
    destruct Hacc as [-> Hd]. simpl in *. rewrite Hd.
    split; [exact Hs|]. split; [done|]. split; [done|]. split; [done|].
    by eexists.
Qed.

Lemma hyphen_split (p1 p2 u1 u2 : string) :
  ConnectedAccounts.hyphen_free p1 = true →
  ConnectedAccounts.hyphen_free p2 = true →
  p1 +:+ "-" +:+ u1 = p2 +:+ "-" +:+ u2 →
  p1 = p2 ∧ u1 = u2.
Proof.
  revert p2. induction p1 as [|a p1 IH]; intros p2 H1 H2 He.
  - destruct p2 as [|b p2]; simpl in *.
    + injection He as He. by subst.
    + injection He as Hb _. subst b. simpl in H2. done.
  - destruct p2 as [|b p2]; simpl in *.
    + injection He as Ha _. subst a. simpl in H1. done.
    + injection He as Hab He. subst b.
      apply andb_true_iff in H1 as [_ H1].
      apply andb_true_iff in H2 as [_ H2].
      destruct (IH p2 H1 H2 He) as [-> ->]. done.
Qed.

(** X11. The key the page keeps for the row being edited names one account:
    for provider names without a hyphen (github, google), right after
    [startEditingLabel] for an account, a row shows the editor exactly when
    it is the row of that provider and that uid. *)
Theorem editor_shown_in_one_row (p u p' u' : string) (label : Json)
    (s : ConnectedAccounts.State) :
  ConnectedAccounts.hyphen_free p = true →
  ConnectedAccounts.hyphen_free p' = true →
  ConnectedAccounts.isEditing (JStr p') (JStr u')
    (ConnectedAccounts.startEditingLabel (JStr p) (JStr u) label s) = true
  ↔ p' = p ∧ u' = u.
Proof.
  intros Hp Hp'. unfold ConnectedAccounts.isEditing,
    ConnectedAccounts.startEditingLabel. simpl.
  rewrite String.eqb_eq. split.
  - intros H. symmetry in H. by apply hyphen_split in H.
  - by intros [-> ->].
Qed.

(** Two GitHub accounts and a Google account whose uid equals one of them. *)
Lemma editor_shown_in_one_row_witness :
  ConnectedAccounts.hyphen_free "github" = true ∧
  ConnectedAccounts.hyphen_free "google" = true ∧
  ConnectedAccounts.isEditing (JStr "google") (JStr "42")
    (ConnectedAccounts.startEditingLabel (JStr "github") (JStr "42") JNull
       (ConnectedAccounts.initial Sample.signed_in)) ≠ true.
Proof.
  split; [reflexivity|]. split; [reflexivity|].
  intros H.
  apply (editor_shown_in_one_row "github" "42" "google" "42" JNull
           (ConnectedAccounts.initial Sample.signed_in) eq_refl eq_refl) in H.
  destruct H as [H _]. discriminate.
Defined.

(** X12. Saving a label sends exactly one update carrying the buffer and
    leaves the buffer as it is. If the update is accepted the editor is
    closed and the success notice shown; if it fails the editor stays open
    on the same account with the list of accounts as it was, and the
    failure notice is the last one shown, so the user can try again. *)
Theorem save_closes_editor_on_success (provider uid : Json)
    (replySave replyList : Reply) (s : ConnectedAccounts.State) :
  let s' := snd (ConnectedAccounts.saveLabel provider uid replySave
                   replyList s) in
  ConnectedAccounts.labelValue s' = ConnectedAccounts.labelValue s ∧
  ConnectedAccounts.labels_sent (ConnectedAccounts.world s')
    = (ConnectedAccounts.labels_sent (ConnectedAccounts.world s) ++
       [ConnectedAccounts.labelValue s])%list ∧
  match Api.accepted replySave with
  | Some _ =>
      ConnectedAccounts.editingLabel s' = None ∧
      (ToastSuccess, JStr "Label updated")
        ∈ toasts (ConnectedAccounts.world s')
  | None =>
      ConnectedAccounts.editingLabel s' = ConnectedAccounts.editingLabel s ∧
      ConnectedAccounts.accounts s' = ConnectedAccounts.accounts s ∧
      ∃ before,
        toasts (ConnectedAccounts.world s')
          = (before ++ [(ToastError, JStr "Failed to update label")])%list
  end.
Proof.
  intros s'.
  destruct (saveLabel_effect provider uid replySave replyList s) as [Hl Hs].
  fold s' in Hl, Hs. split; [exact Hl|]. split; [exact Hs|].
  clear Hl Hs. subst s'.
  unfold ConnectedAccounts.saveLabel. autounfold with monad calls.
  cbn -[Api.request ConnectedAccounts.fetchConnectedAccounts].
  set (c := mkConfig POST (Some "/api/auth/update-account-label/") ∅ _).
  destruct (Api.request c replySave (ConnectedAccounts.world s))
    as [[r|e] w1] eqn:E.
  - apply request_fulfilled in E as [Ha Hw]. rewrite Ha.
    match goal with
    | |- context [ConnectedAccounts.fetchConnectedAccounts replyList ?x] =>
        set (s1 := x)
    end.
    destruct (fetchConnectedAccounts_frame replyList s1) as (He & _ & Ht).
    assert (Hin : (ToastSuccess, JStr "Label updated")
                  ∈ toasts (ConnectedAccounts.world s1)).
    { subst s1. simpl. apply elem_of_app. right.
      by apply list_elem_of_singleton. }
    destruct Ht as [more Ht].
    destruct (ConnectedAccounts.fetchConnectedAccounts replyList s1)
      as [[u0|e0] s2]; simpl in *.
    + split; [done|]. rewrite Ht. apply elem_of_app. by left.
    + split; [done|]. rewrite Ht. apply elem_of_app. left.
      apply elem_of_app. by left.
  - apply request_rejected in E as ->. simpl.
    split; [done|]. split; [done|]. by eexists.
Qed.

(** ** The submission page *)

Lemma trimStart_blank (t : list SubmitCode.CodeUnit) :
  SubmitCode.blank (SubmitCode.trimStart t) = SubmitCode.blank t.
Proof.
  induction t as [|u t IH]; simpl; [done|].
  destruct (SubmitCode.isWhiteSpace u) eqn:Hu; simpl.
  - exact IH.
  - by rewrite Hu.
Qed.

Lemma trimEnd_empty (t : list SubmitCode.CodeUnit) :
  SubmitCode.trimEnd t = [] ↔ SubmitCode.blank t = true.
Proof.
  induction t as [|u t IH]; simpl; [done|].
  destruct (SubmitCode.trimEnd t) eqn:Ht.
  - destruct (SubmitCode.isWhiteSpace u); simpl.
    + split; intros _; [by apply IH | done].
    + split; intros; done.
  - split; [done|]. intros H. apply andb_true_iff in H as [_ H].
    apply IH in H. done.
Qed.

(** [trim] leaves nothing exactly of the strings that are all white space. *)
Lemma trim_empty (t : list SubmitCode.CodeUnit) :
  SubmitCode.trim t = [] ↔ SubmitCode.blank t = true.
Proof.
  unfold SubmitCode.trim. rewrite trimEnd_empty. by rewrite trimStart_blank.
Qed.

Lemma submitted_grow (w w' : World) (c : Config) :
  sent w' = (sent w ++ [c])%list →
  SubmitCode.submitted w' =
    (SubmitCode.submitted w ++
     (match method c with
      | POST => if decide (url c = Some "/api/submissions/")
                then [body c] else []
      | _ => []
      end))%list.
Proof.
  intros H. unfold SubmitCode.submitted. rewrite H, omap_app. simpl.
  destruct (method c); try done.
  by destruct (decide (url c = Some "/api/submissions/")).
Qed.

Lemma request_interceptor_method (w : World) (c : Config) :
  method (Api.request_interceptor w c) = method c.
Proof.
  unfold Api.request_interceptor.
  destruct (negb (Api.isPublicEndpoint c)); [|done].
  by destruct (getItem "access" w) as [[|a t]|].
Qed.

(** The notices a call itself adds: the session notice, on a 401 from a
    target that is not public. *)
Lemma request_notices (c : Config) (reply : Reply) (w : World) :
  toasts (snd (Api.request c reply w))
  = (toasts w ++
     match reply with
     | Replied r =>
         if Api.validateStatus (status r) then []
         else if status r =? 401 then
           if Api.isPublicEndpoint c then []
           else [(ToastError,
                  JStr "Your session has expired. Please login again.")]
         else []
     | NoResponse => []
     end)%list.
Proof.
  unfold Api.request, Api.response_rejected. destruct reply as [|r]; simpl.
  - by rewrite app_nil_r.
  - destruct (Api.validateStatus (status r)); simpl; [by rewrite app_nil_r|].
    destruct (status r =? 401); simpl; [|by rewrite app_nil_r].
    change (Api.isAuthEndpoint
              (mkError (Some r) (Some (Api.request_interceptor w c))))
      with (Api.isPublicEndpoint (Api.request_interceptor w c)).
    rewrite request_interceptor_public.
    destruct (Api.isPublicEndpoint c); simpl; [by rewrite app_nil_r|].
    by destruct (String.eqb (pathname w) "/login").
Qed.

(** What a call is rejected with. *)
Lemma request_rejected_with (c : Config) (reply : Reply) (w w' : World)
    (e : Thrown) :
  Api.request c reply w = (Rejected e, w') →
  Api.accepted reply = None ∧
  e = AxiosRejection (mkError (Api.reply_response reply)
                        (Some (Api.request_interceptor w c))).
Proof.
  unfold Api.request, Api.accepted, Api.response_rejected.
  destruct reply as [|r]; simpl.
  - intros [= <- _]. done.
  - destruct (Api.validateStatus (status r)); simpl.
    + unfold Api.response_fulfilled, ret. intros [=].
    + intros [= <- _]. done.
Qed.

(** The notices one attempt to load the list adds. *)
Lemma fetchSubmissions_outcome (serialize : list (string * string) → string)
    (ceilTenth : Json → Json) (pageNum : Z) (reply : Reply)
    (s : SubmitCode.State) :
  let u := "/api/submissions/?"
           +:+ serialize (SubmitCode.params pageNum (SubmitCode.filters s)) in
  let out := SubmitCode.fetchSubmissions serialize ceilTenth pageNum reply s in
  fst out = Fulfilled tt ∧
  SubmitCode.code (snd out) = SubmitCode.code s ∧
  SubmitCode.loading (snd out) = SubmitCode.loading s ∧
  SubmitCode.submitted (SubmitCode.world (snd out))
    = SubmitCode.submitted (SubmitCode.world s) ∧
  sent (SubmitCode.world (snd out))
    = (sent (SubmitCode.world s) ++
       [Api.request_interceptor (SubmitCode.world s)
          (mkConfig GET (Some u) ∅ JUndefined)])%list ∧
  toasts (SubmitCode.world (snd out))
    = (toasts (SubmitCode.world s) ++
       match reply with
       | Replied r =>
           if Api.validateStatus (status r) then
             match data r with
             | JUndefined | JNull =>
                 [(ToastError, JStr "Failed to load submissions")]
             | _ => []
             end
           else if status r =? 401 then
             if Api.some_includes (Some u) then []
             else [(ToastError,
                    JStr "Your session has expired. Please login again.")]
           else [(ToastError, JStr "Failed to load submissions")]
       | NoResponse => [(ToastError, JStr "Failed to load submissions")]
       end)%list ∧
  (Api.accepted reply = None →
     SubmitCode.submissions (snd out) = SubmitCode.submissions s ∧
     SubmitCode.totalPages (snd out) = SubmitCode.totalPages s).
Proof.
  intros u out. subst out.
  unfold SubmitCode.fetchSubmissions. autounfold with monad calls.
  cbn -[Api.request SubmitCode.params]. fold u.
  set (g := mkConfig GET (Some u) ∅ JUndefined).
  pose proof (request_sent g reply (SubmitCode.world s)) as Hs.
  pose proof (submitted_grow _ _ _ Hs) as Hsub.
  rewrite request_interceptor_method in Hsub. simpl in Hsub.
  rewrite app_nil_r in Hsub.
  pose proof (request_notices g reply (SubmitCode.world s)) as Ht.
  change (Api.isPublicEndpoint g) with (Api.some_includes (Some u)) in Ht.
  destruct (Api.request g reply (SubmitCode.world s)) as [[r|e] w1] eqn:E;
    simpl in Hs, Hsub, Ht.
  - apply request_fulfilled in E as [Ha _].
    unfold Api.accepted in Ha. destruct reply as [|r0]; [done|].
    destruct (Api.validateStatus (status r0)) eqn:Hv; [|done].
    injection Ha as ->. rewrite app_nil_r in Ht.
    destruct (data r) eqn:Ed; cbn; rewrite ?app_nil_r;
      (split; [reflexivity|]); (split; [reflexivity|]);
      (split; [reflexivity|]); (split; [exact Hsub|]);
      (split; [exact Hs|]); (split; [by rewrite ?Ht|]);
      first [ intros _; by split
            | intros Hn; unfold Api.accepted in Hn; simpl in Hn;
              rewrite Hv in Hn; discriminate ].
  - apply request_rejected_with in E as [Ha ->].
    unfold Api.accepted in Ha. cbn.
    destruct reply as [|r0]; cbn.
    + rewrite app_nil_r in Ht.
      (split; [reflexivity|]); (split; [reflexivity|]);
      (split; [reflexivity|]); (split; [exact Hsub|]);
      (split; [exact Hs|]); (split; [by rewrite Ht|]); intros _; by split.
    + destruct (Api.validateStatus (status r0)) eqn:Hv; [done|].
      destruct (status r0 =? 401) eqn:H401; cbn.
      * (split; [reflexivity|]); (split; [reflexivity|]);
        (split; [reflexivity|]); (split; [exact Hsub|]);
        (split; [exact Hs|]); (split; [exact Ht|]); intros _; by split.
      * rewrite app_nil_r in Ht.
        (split; [reflexivity|]); (split; [reflexivity|]);
        (split; [reflexivity|]); (split; [exact Hsub|]);
        (split; [exact Hs|]); (split; [by rewrite Ht|]); intros _; by split.
Qed.

(** X14. Loading the list of submissions shows at most one notice. A
    success shows none; a 401 shows only the session notice of the
    interceptor (the page adds nothing of its own); any other failure,
    including a reply with no body to read, shows the load-failure notice.
    On every failure the list and the page count stay as they were. The
    request made is one GET whose query starts with the page asked for. *)
Theorem listing_shows_at_most_one_notice
    (serialize : list (string * string) → string) (ceilTenth : Json → Json)
    (pageNum : Z) (reply : Reply) (s : SubmitCode.State) :
  let u := "/api/submissions/?"
           +:+ serialize (SubmitCode.params pageNum (SubmitCode.filters s)) in
  let s' := snd (SubmitCode.fetchSubmissions serialize ceilTenth pageNum
                   reply s) in
  (∃ filters,
     SubmitCode.params pageNum (SubmitCode.filters s)
       = ("page", toString (JNum pageNum)) :: filters) ∧
  (∃ c, sent (SubmitCode.world s') = (sent (SubmitCode.world s) ++ [c])%list ∧
        method c = GET ∧ url c = Some u) ∧
  (∃ notices,
     toasts (SubmitCode.world s')
       = (toasts (SubmitCode.world s) ++ notices)%list ∧
     (length notices ≤ 1)%nat ∧
     (Api.accepted reply = None →
        Api.some_includes (Some u) = false →
        notices =
          [(ToastError,
            match reply with
            | Replied r =>
                if status r =? 401
                then JStr "Your session has expired. Please login again."
                else JStr "Failed to load submissions"
            | NoResponse => JStr "Failed to load submissions"
            end)])) ∧
  (Api.accepted reply = None →
     SubmitCode.submissions s' = SubmitCode.submissions s ∧
     SubmitCode.totalPages s' = SubmitCode.totalPages s).
Proof.
  intros u s'.
  destruct (fetchSubmissions_outcome serialize ceilTenth pageNum reply s)
    as (_ & _ & _ & _ & Hs & Ht & Hk).
  fold u in Hs, Ht. fold s' in Hs, Ht, Hk.
  split; [by eexists|]. split.
  { eexists. split; [exact Hs|].
    by rewrite request_interceptor_method, request_interceptor_url. }
  split; [|exact Hk].
  eexists. split; [exact Ht|]. split.
  - destruct reply as [|r]; simpl; [lia|].
    destruct (Api.validateStatus (status r)).
    + destruct (data r); simpl; lia.
    + destruct (status r =? 401); [|simpl; lia].
      destruct (Api.some_includes (Some u)); simpl; lia.
  - intros Ha Hp. unfold Api.accepted in Ha. destruct reply as [|r]; [done|].
    destruct (Api.validateStatus (status r)); [done|].
    rewrite Hp. by destruct (status r =? 401).
Qed.

(** X13. Code that is empty or all white space, as [String.prototype.trim]
    sees white space over the code units of the string, is never submitted:
    the handler shows a notice and changes nothing else. Any other code is
    posted untrimmed, with the language chosen, and the busy mark is
    cleared at the end. If the post is accepted the editor is emptied and
    the list is fetched again from page 1; if it fails the code stays in
    the editor and the list is as it was. *)
Theorem blank_code_is_not_submitted
    (serialize : list (string * string) → string) (ceilTenth : Json → Json)
    (utf8 : list SubmitCode.CodeUnit → string)
    (replyPost replyList : Reply) (s : SubmitCode.State) :
  let out := SubmitCode.submitCode serialize ceilTenth utf8 replyPost
               replyList s in
  (SubmitCode.blank (SubmitCode.code s) = true →
     out = (Fulfilled tt,
            over SubmitCode.worldL
              (toast ToastError
                 (JStr "Please enter some code before submitting")) s)) ∧
  (SubmitCode.blank (SubmitCode.code s) = false →
     fst out = Fulfilled tt ∧
     SubmitCode.loading (snd out) = false ∧
     SubmitCode.submitted (SubmitCode.world (snd out))
       = (SubmitCode.submitted (SubmitCode.world s) ++
          [JObj [("code", JStr (utf8 (SubmitCode.code s)));
                 ("language", JStr (SubmitCode.language s))]])%list ∧
     match Api.accepted replyPost with
     | Some _ =>
         SubmitCode.code (snd out) = [] ∧
         ∃ c, last (sent (SubmitCode.world (snd out))) = Some c ∧
              method c = GET ∧
              url c = Some ("/api/submissions/?"
                            +:+ serialize
                                  (SubmitCode.params 1 (SubmitCode.filters s)))
     | None =>
         SubmitCode.code (snd out) = SubmitCode.code s ∧
         SubmitCode.submissions (snd out) = SubmitCode.submissions s ∧
         SubmitCode.totalPages (snd out) = SubmitCode.totalPages s
     end).
Proof.
  intros out. subst out. unfold SubmitCode.submitCode. split.
  - intros Hb. apply trim_empty in Hb. by rewrite Hb.
  - intros Hb.
    destruct (SubmitCode.trim (SubmitCode.code s)) as [|a t] eqn:Ht.
    { apply trim_empty in Ht. congruence. }
    autounfold with monad calls.
    cbn -[Api.request SubmitCode.fetchSubmissions].
    set (c := mkConfig POST (Some "/api/submissions/") ∅ _).
    pose proof (request_sent c replyPost (SubmitCode.world s)) as Hs.
    pose proof (submitted_grow _ _ _ Hs) as Hsub.
    rewrite request_interceptor_method, request_interceptor_url,
      request_interceptor_body in Hsub. simpl in Hsub.
    destruct (Api.request c replyPost (SubmitCode.world s))
      as [[r|e] w1] eqn:E; simpl in Hs, Hsub.
    + apply request_fulfilled in E as [Ha _]. rewrite Ha.
      match goal with
      | |- context [SubmitCode.fetchSubmissions serialize ceilTenth 1
                      replyList ?x] => set (s1 := x)
      end.
      destruct (fetchSubmissions_outcome serialize ceilTenth 1 replyList s1)
        as (Hf & Hc & Hl & Hsb & Hsn & _ & _).
      destruct (SubmitCode.fetchSubmissions serialize ceilTenth 1 replyList s1)
        as [[u0|e0] s2]; simpl in Hf, Hc, Hl, Hsb, Hsn; [|done].
      cbn. split; [done|]. split; [done|].
      split; [by rewrite Hsb|]. split; [exact Hc|].
      eexists. split; [rewrite Hsn; apply last_snoc|].
      by rewrite request_interceptor_method, request_interceptor_url.
    + apply request_rejected in E as ->. cbn.
      split; [done|]. split; [done|]. split; [exact Hsub|]. done.
Qed.

(** White space beyond the Latin-1 range counts: code made of an
    ideographic space, a byte order mark and a line separator is blank,
    and [trim] strips a no-break space and a thin space around a word. *)
Example trim_examples :
  SubmitCode.blank [0x3000; 0xFEFF; 0x2028]%N = true ∧
  SubmitCode.trim [0xA0; 0x70; 0x72; 0x69; 0x6E; 0x74; 0x2009]%N
    = [0x70; 0x72; 0x69; 0x6E; 0x74]%N ∧
  SubmitCode.blank [0x20; 0x70; 0x20]%N = false ∧
  SubmitCode.trim [0x9; 0xA; 0x20]%N = [] ∧
  SubmitCode.isWhiteSpace 0x85%N = false ∧
  SubmitCode.isWhiteSpace 0x200B%N = false.
Proof. repeat split. Qed.

(** ** The GitHub repositories page *)

Lemma fetchRepos_outcome (selected githubUid : Json) (reply : Reply)
    (s : GitHubRepos.State) :
  let s' := snd (GitHubRepos.fetchRepos selected githubUid reply s) in
  fst (GitHubRepos.fetchRepos selected githubUid reply s) = Fulfilled tt ∧
  GitHubRepos.loading s' = false ∧
  GitHubRepos.selectedAccount s' = GitHubRepos.selectedAccount s ∧
  GitHubRepos.importing s' = GitHubRepos.importing s ∧
  sent (GitHubRepos.world s')
    = (sent (GitHubRepos.world s) ++
       [Api.request_interceptor (GitHubRepos.world s)
          (mkConfig GET
             (Some (GitHubRepos.repos_url (Js.or githubUid selected)))
             ∅ JUndefined)])%list ∧
  match reply with
  | Replied r =>
      if Api.validateStatus (status r) then
        GitHubRepos.repos s' = data r ∧
        GitHubRepos.githubConnected s' = GitHubRepos.githubConnected s ∧
        toasts (GitHubRepos.world s') = toasts (GitHubRepos.world s)
      else
        GitHubRepos.repos s' = GitHubRepos.repos s ∧
        GitHubRepos.githubConnected s'
          = (if status r =? 400 then JBool false
             else GitHubRepos.githubConnected s) ∧
        ∃ before,
          toasts (GitHubRepos.world s')
            = (before ++
               [(ToastError,
                 if status r =? 400
                 then JStr "GitHub account not connected. Please connect your GitHub account."
                 else JStr "Failed to load repositories")])%list
  | NoResponse =>
      GitHubRepos.repos s' = GitHubRepos.repos s ∧
      GitHubRepos.githubConnected s' = GitHubRepos.githubConnected s ∧
      ∃ before,
        toasts (GitHubRepos.world s')
          = (before ++ [(ToastError, JStr "Failed to load repositories")])%list
  end.
Proof.
  intros s'. subst s'.
  unfold GitHubRepos.fetchRepos. autounfold with monad calls.
  cbn -[Api.request GitHubRepos.repos_url].
  set (g := mkConfig GET _ ∅ JUndefined).
  pose proof (request_sent g reply (GitHubRepos.world s)) as Hs.
  destruct (Api.request g reply (GitHubRepos.world s)) as [[r|e] w1] eqn:E;
    simpl in Hs.
  - apply request_fulfilled in E as [Ha ->].
    unfold Api.accepted in Ha. destruct reply as [|r0]; [done|].
    destruct (Api.validateStatus (status r0)); [|done].
    injection Ha as ->. cbn. do 7 (split; [done|]). done.
  - apply request_rejected_with in E as [Ha ->].
    unfold Api.accepted in Ha. destruct reply as [|r0]; cbn.
    + do 7 (split; [done|]). by eexists.
    + destruct (Api.validateStatus (status r0)); [done|].
      destruct (status r0 =? 400); cbn;
        do 7 (split; [done|]); by eexists.
Qed.

(** X16. Listing the repositories of an account sends one GET and always
    clears the loading mark. A success replaces the list with the body and
    shows nothing. Only a reply with status 400 marks GitHub as not
    connected (with its own notice); every other failure leaves that mark
    alone and ends with the load-failure notice. The list is kept on every
    failure, and neither the selected account nor the import marks are
    touched. *)
Theorem only_400_marks_disconnected (selected githubUid : Json)
    (reply : Reply) (s : GitHubRepos.State) :
  let s' := snd (GitHubRepos.fetchRepos selected githubUid reply s) in
  GitHubRepos.loading s' = false ∧
  GitHubRepos.selectedAccount s' = GitHubRepos.selectedAccount s ∧
  GitHubRepos.importing s' = GitHubRepos.importing s ∧
  (∀ r, Api.accepted reply = Some r →
        GitHubRepos.repos s' = data r ∧
        GitHubRepos.githubConnected s' = GitHubRepos.githubConnected s ∧
        toasts (GitHubRepos.world s') = toasts (GitHubRepos.world s)) ∧
  (Api.accepted reply = None →
     GitHubRepos.repos s' = GitHubRepos.repos s ∧
     (GitHubRepos.githubConnected s' ≠ GitHubRepos.githubConnected s →
        ∃ r, reply = Replied r ∧ status r = 400) ∧
     ((∃ r, reply = Replied r ∧ status r = 400) →
        GitHubRepos.githubConnected s' = JBool false)).
Proof.
  intros s'.
  destruct (fetchRepos_outcome selected githubUid reply s)
    as (_ & Hl & Hsel & Him & _ & H). fold s' in Hl, Hsel, Him, H.
  split; [exact Hl|]. split; [exact Hsel|]. split; [exact Him|].
  unfold Api.accepted. destruct reply as [|r0].
  - split; [done|]. intros _. destruct H as (Hr & Hc & _).
    split; [exact Hr|]. split; [done|]. intros [r [[=] _]].
  - destruct (Api.validateStatus (status r0)).
    + split; [by intros r [= <-]|done].
    + split; [done|]. intros _. destruct H as (Hr & Hc & _).
      split; [exact Hr|]. rewrite Hc.
      destruct (status r0 =? 400) eqn:H4.
      * apply Z.eqb_eq in H4. split; [by eexists|done].
      * apply Z.eqb_neq in H4. split; [done|]. by intros [r [[= <-] ?]].
Qed.

(** X17. Choosing an account records the choice and asks for the
    repositories of the account chosen. When the value chosen is empty the
    request falls back to the account that was selected before the choice,
    although the selection recorded is the empty one. *)
Theorem account_change_lists_chosen_account (uid : Json) (reply : Reply)
    (s : GitHubRepos.State) :
  let s' := snd (GitHubRepos.handleAccountChange uid reply s) in
  GitHubRepos.selectedAccount s' = uid ∧
  ∃ c,
    sent (GitHubRepos.world s') = (sent (GitHubRepos.world s) ++ [c])%list ∧
    method c = GET ∧
    url c =
      Some (if truthy uid then
              "/api/auth/github/repos/?github_uid=" +:+ toString uid
            else if truthy (GitHubRepos.selectedAccount s) then
              "/api/auth/github/repos/?github_uid="
              +:+ toString (GitHubRepos.selectedAccount s)
            else "/api/auth/github/repos/").
Proof.
  intros s'. subst s'. unfold GitHubRepos.handleAccountChange.
  unfold bind at 1, modify at 1.
  set (s1 := GitHubRepos.setSelectedAccount uid s).
  destruct (fetchRepos_outcome (GitHubRepos.selectedAccount s) uid reply s1)
    as (_ & _ & Hsel & _ & Hs & _).
  split; [exact Hsel|]. eexists. split; [exact Hs|].
  rewrite request_interceptor_method, request_interceptor_url. simpl.
  split; [done|]. unfold GitHubRepos.repos_url, Js.or.
  destruct (truthy uid) eqn:Hu; [by rewrite Hu|]. done.
Qed.

Lemma imports_sent_grow (w w' : World) (c : Config) :
  sent w' = (sent w ++ [c])%list →
  GitHubRepos.imports_sent w' =
    (GitHubRepos.imports_sent w ++
     (if decide (url c = Some "/api/repositories/import/")
      then [body c] else []))%list.
Proof.
  intros H. unfold GitHubRepos.imports_sent. rewrite H, omap_app. simpl.
  by destruct (decide (url c = Some "/api/repositories/import/")).
Qed.

(** The part before the first slash: it has no slash, and the string
    continues after it with a slash or not at all. *)
Lemma firstSegment_spec (t : string) :
  includes (GitHubRepos.firstSegment t) "/" = false ∧
  ∃ rest, t = GitHubRepos.firstSegment t +:+ rest ∧
          (rest = EmptyString ∨ ∃ r, rest = "/" +:+ r).
Proof.
  induction t as [|a t [IH1 [rest [IH2 IH3]]]];
    cbn [GitHubRepos.firstSegment].
  - split; [done|]. exists EmptyString. split; [done|by left].
  - destruct (Ascii.eqb a (Ascii.ascii_of_nat 47)) eqn:Ha.
    + split; [done|]. apply Ascii.eqb_eq in Ha. subst a.
      exists (String (Ascii.ascii_of_nat 47) t). split; [done|].
      right. by exists t.
    + split.
      * change (includes (String a (GitHubRepos.firstSegment t)) "/")
          with (Ascii.eqb (Ascii.ascii_of_nat 47) a && true
                || includes (GitHubRepos.firstSegment t) "/").
        rewrite Ascii.eqb_sym, Ha. exact IH1.
      * exists rest. split; [|exact IH3].
        rewrite IH2 at 1. reflexivity.
Qed.

Lemma importAttempt_outcome (repo : Json) (reply : Reply)
    (s : GitHubRepos.State) :
  let out := GitHubRepos.importAttempt repo reply s in
  let id := field "id" repo in
  let login := field "login" (field "owner" repo) in
  fst out = Fulfilled tt ∧
  GitHubRepos.repos (snd out) = GitHubRepos.repos s ∧
  GitHubRepos.selectedAccount (snd out) = GitHubRepos.selectedAccount s ∧
  GitHubRepos.importing (snd out)
    = <[toString id := false]> (GitHubRepos.importing s) ∧
  match id with
  | JUndefined | JNull =>
      GitHubRepos.imports_sent (GitHubRepos.world (snd out))
        = GitHubRepos.imports_sent (GitHubRepos.world s) ∧
      toasts (GitHubRepos.world (snd out))
        = (toasts (GitHubRepos.world s) ++
           [(ToastError, JStr "Failed to import repository")])%list
  | _ =>
      let sends (owner : Json) :=
        GitHubRepos.imports_sent (GitHubRepos.world (snd out))
          = (GitHubRepos.imports_sent (GitHubRepos.world s) ++
             [JObj [("github_uid", GitHubRepos.selectedAccount s);
                    ("repo_id", JStr (toString id));
                    ("owner", owner);
                    ("name", field "name" repo);
                    ("branch",
                     Js.or (field "default_branch" repo) (JStr "main"))]])%list in
      if truthy login then sends login
      else
        match field "full_name" repo with
        | JStr full_name => sends (JStr (GitHubRepos.firstSegment full_name))
        | _ =>
            GitHubRepos.imports_sent (GitHubRepos.world (snd out))
              = GitHubRepos.imports_sent (GitHubRepos.world s) ∧
            toasts (GitHubRepos.world (snd out))
              = (toasts (GitHubRepos.world s) ++
                 [(ToastError, JStr "Failed to import repository")])%list
        end
  end.
Proof.
  intros out id login. subst out.
  assert (Hpost : ∀ payload (m : gmap string bool) (s1 : GitHubRepos.State),
    GitHubRepos.repos s1 = GitHubRepos.repos s →
    GitHubRepos.selectedAccount s1 = GitHubRepos.selectedAccount s →
    GitHubRepos.world s1 = GitHubRepos.world s →
    let out :=
      finally
        (try_catch
           (let* res := zoom GitHubRepos.worldL
                          (Api.post "/api/repositories/import/" payload reply) in
            let* message := read "message" (data res) in
            modify (over GitHubRepos.worldL
                      (toast ToastSuccess
                         (Js.or message
                            (JStr "Repository imported successfully!")))))
           (fun err =>
              modify (over GitHubRepos.worldL
                        (toast ToastError
                           (Js.or (field "error" (error_data err))
                              (JStr "Failed to import repository"))))))
        (GitHubRepos.setImporting m) s1 in
    fst out = Fulfilled tt ∧
    GitHubRepos.repos (snd out) = GitHubRepos.repos s ∧
    GitHubRepos.selectedAccount (snd out) = GitHubRepos.selectedAccount s ∧
    GitHubRepos.importing (snd out) = m ∧
    GitHubRepos.imports_sent (GitHubRepos.world (snd out))
      = (GitHubRepos.imports_sent (GitHubRepos.world s) ++ [payload])%list).
  { intros payload m s1 Hr Hsel Hw out. subst out.
    autounfold with monad calls. cbn -[Api.request]. rewrite Hw.
    set (c := mkConfig POST (Some "/api/repositories/import/") ∅ payload).
    pose proof (request_sent c reply (GitHubRepos.world s)) as Hs.
    apply imports_sent_grow in Hs.
    rewrite request_interceptor_url, request_interceptor_body in Hs.
    simpl in Hs.
    destruct (Api.request c reply (GitHubRepos.world s)) as [[r|e] w1];
      simpl in Hs.
    - destruct (data r); cbn; by rewrite ?Hr, ?Hsel.
    - cbn. by rewrite ?Hr, ?Hsel. }
  unfold GitHubRepos.importAttempt, GitHubRepos.toStringOf, GitHubRepos.ownerOf.
  subst id login.
  destruct (field "id" repo) eqn:Eid;
    try (autounfold with monad calls; cbn; rewrite ?app_nil_r; by repeat split);
    (destruct (truthy (field "login" (field "owner" repo))) eqn:El;
     [ | destruct (field "full_name" repo) eqn:Efn;
         try (autounfold with monad calls; cbn; rewrite ?app_nil_r;
              by repeat split) ]);
    cbv zeta;
    refine (Hpost (JObj [("github_uid", _); ("repo_id", _); ("owner", _);
                         ("name", _); ("branch", _)]) _
              (GitHubRepos.setImporting _ s) eq_refl eq_refl eq_refl).
Qed.

(** X15. Importing a repository sends a request only for a record that has
    an id and an owner to name: the owner's login, or failing that a full
    name, whose part before the first slash is taken. Such a record is sent
    with the id as a string, the branch never empty (the default branch, or
    [main]), and the account selected on the page; the handler then ends
    with the import mark of that repository cleared. Any other record sends
    nothing and shows the import-failure notice. The list and the selected
    account are never touched. *)
Theorem import_needs_id_and_owner (repo : Json) (reply : Reply)
    (s : GitHubRepos.State) :
  let out := GitHubRepos.handleImportRepo repo reply s in
  let login := field "login" (field "owner" repo) in
  let branch := Js.or (field "default_branch" repo) (JStr "main") in
  GitHubRepos.repos (snd out) = GitHubRepos.repos s ∧
  GitHubRepos.selectedAccount (snd out) = GitHubRepos.selectedAccount s ∧
  truthy branch = true ∧
  (GitHubRepos.importable repo = false →
     GitHubRepos.imports_sent (GitHubRepos.world (snd out))
       = GitHubRepos.imports_sent (GitHubRepos.world s) ∧
     toasts (GitHubRepos.world (snd out))
       = (toasts (GitHubRepos.world s) ++
          [(ToastError, JStr "Failed to import repository")])%list) ∧
  (GitHubRepos.importable repo = true →
     fst out = Fulfilled tt ∧
     GitHubRepos.importing (snd out)
       = <[toString (field "id" repo) := false]> (GitHubRepos.importing s) ∧
     ∃ owner,
       GitHubRepos.imports_sent (GitHubRepos.world (snd out))
         = (GitHubRepos.imports_sent (GitHubRepos.world s) ++
            [JObj [("github_uid", GitHubRepos.selectedAccount s);
                   ("repo_id", JStr (toString (field "id" repo)));
                   ("owner", owner);
                   ("name", field "name" repo);
                   ("branch", branch)]])%list ∧
       (truthy login = true ∧ owner = login ∨
        truthy login = false ∧
        ∃ full_name, field "full_name" repo = JStr full_name ∧
                     owner = JStr (GitHubRepos.firstSegment full_name))).
Proof.
  intros out login branch.
  assert (Hb : truthy branch = true).
  { subst branch. unfold Js.or.
    by destruct (truthy (field "default_branch" repo)) eqn:H. }
  assert (Hcase :
    (repo = JUndefined ∨ repo = JNull) ∨
    (GitHubRepos.handleImportRepo repo reply
       = GitHubRepos.importAttempt repo reply ∧
     GitHubRepos.importable repo =
       match field "id" repo with
       | JUndefined | JNull => false
       | _ =>
           truthy (field "login" (field "owner" repo)) ||
           match field "full_name" repo with
           | JStr _ => true
           | _ => false
           end
       end)).
  { destruct repo; auto. }
  destruct Hcase as [[-> | ->] | [Hh Hi]].
  - subst out. cbn. repeat split; try done.
  - subst out. cbn. repeat split; try done.
  - subst out. rewrite Hh, Hi.
    pose proof (importAttempt_outcome repo reply s) as P. cbv zeta in P.
    destruct P as (Hf & Hr & Hsel & Him & P). fold login in P |- *.
    split; [exact Hr|]. split; [exact Hsel|]. split; [exact Hb|].
    destruct (field "id" repo) eqn:Eid;
      try (split; [intros _; exact P | discriminate]);
      (destruct (truthy login) eqn:El;
       [ split; [discriminate|]; intros _;
         split; [exact Hf|]; split; [exact Him|];
         exists login; split; [exact P | by left]
       | destruct (field "full_name" repo) as [| | | |fn| |] eqn:Efn;
         try (split; [intros _; exact P | discriminate]);
         split; [discriminate|]; intros _;
         split; [exact Hf|]; split; [exact Him|];
         eexists; split; [exact P|]; right; split; [done|]; by eexists ]).
Qed.

(** ** The profile page *)

Lemma fetchProfile_outcome (reply : Reply) (s : Profile.State) :
  let s' := snd (Profile.fetchProfile reply s) in
  Profile.isEditing s' = Profile.isEditing s ∧
  match ImportedRepos.readable reply with
  | Some d =>
      Profile.profile s'
        = Profile.profileData (field "first_name" d) (field "last_name" d)
            (field "profile_picture_url" d) (field "bio" d) (field "role" d) ∧
      Profile.originalProfile s' = Some (Profile.profile s') ∧
      Profile.preview s'
        = Js.or (field "profile_picture_url" d) (JStr EmptyString) ∧
      toasts (Profile.world s') = toasts (Profile.world s)
  | None =>
      Profile.profile s' = Profile.profile s ∧
      Profile.originalProfile s' = Profile.originalProfile s ∧
      Profile.preview s' = Profile.preview s ∧
      ∃ before,
        toasts (Profile.world s')
          = (before ++ [(ToastError, JStr "Failed to load profile")])%list
  end.
Proof.
  intros s'. subst s'.
  unfold Profile.fetchProfile, ImportedRepos.readable.
  autounfold with monad calls. cbn -[Api.request Profile.profileData].
  destruct (Api.request _ reply (Profile.world s)) as [[r|e] w1] eqn:E.
  - apply request_fulfilled in E as [-> ->].
    destruct (data r) eqn:Ed; cbn -[Profile.profileData];
      (split; [reflexivity|]);
      first [ by repeat split
            | do 3 (split; [reflexivity|]); by eexists ].
  - apply request_rejected in E as ->. cbn.
    do 4 (split; [reflexivity|]). by eexists.
Qed.

Lemma or_empty_settled (v : Json) :
  let w := Js.or v (JStr EmptyString) in
  (truthy w = true ∨ w = JStr EmptyString) ∧
  Js.or w (JStr EmptyString) = w.
Proof.
  unfold Js.or. destruct (truthy v) eqn:H; simpl.
  - split; [by left|]. by rewrite H.
  - split; [by right|done].
Qed.

(** X19. A profile that was loaded has a value for each of its five text
    fields, and none of them is null or undefined: a field the response
    leaves out, or gives as null or empty, is the empty string. The
    picture to upload is reset to none, the copy kept for cancelling is the
    profile just loaded, and nothing is shown. When the load fails the
    profile, the copy and the preview stay as they were and the failure
    notice is the last one shown. *)
Theorem loaded_profile_has_no_missing_text (reply : Reply) (s : Profile.State)
    (k : string) :
  let s' := snd (Profile.fetchProfile reply s) in
  match ImportedRepos.readable reply with
  | Some d =>
      (k ∈ ["first_name"; "last_name"; "profile_picture_url"; "bio"; "role"] →
         ∃ v, Profile.profile s' !! k = Some v ∧
              v = Js.or (field k d) (JStr EmptyString) ∧
              (truthy v = true ∨ v = JStr EmptyString)) ∧
      Profile.profile s' !! "profile_picture" = Some JNull ∧
      Profile.originalProfile s' = Some (Profile.profile s') ∧
      toasts (Profile.world s') = toasts (Profile.world s)
  | None =>
      Profile.profile s' = Profile.profile s ∧
      Profile.originalProfile s' = Profile.originalProfile s ∧
      Profile.preview s' = Profile.preview s ∧
      ∃ before,
        toasts (Profile.world s')
          = (before ++ [(ToastError, JStr "Failed to load profile")])%list
  end.
Proof.
  intros s'. destruct (fetchProfile_outcome reply s) as [_ H]. fold s' in H.
  destruct (ImportedRepos.readable reply) as [d|]; [|exact H].
  destruct H as (Hp & Ho & _ & Ht).
  split; [|split; [by rewrite Hp|split; [exact Ho|exact Ht]]].
  intros Hk. rewrite Hp. unfold Profile.profileData.
  repeat (apply elem_of_cons in Hk as [-> | Hk];
          [ eexists; split; [by simplify_map_eq|]; split; [reflexivity|];
            apply (or_empty_settled _) | ]).
  by apply elem_of_nil in Hk.
Qed.

(** [handleChange] as one piece is the handler followed, for a picture
    that is taken, by the end of the read it started. *)
Lemma handleChange_split (name value : string)
    (files : option (list Profile.File)) (dataUrl : Json) (s : Profile.State) :
  Profile.handleChange name value files dataUrl s =
    if Profile.starts_read name files
    then Profile.onloadend dataUrl (Profile.handleChange_sync name value files s)
    else Profile.handleChange_sync name value files s.
Proof.
  unfold Profile.handleChange, Profile.handleChange_sync, Profile.starts_read.
  destruct (String.eqb name "profile_picture"); [|done].
  destruct files as [[|file rest]|]; try done.
  destruct (startsWith "image/" (Profile.type file)); simpl; [|done].
  by destruct (Profile.maxSize <? Profile.size file).
Qed.

Lemma step_keeps_original (e : Profile.Event) (s : Profile.State) :
  Profile.originalProfile (Profile.step e s) = Profile.originalProfile s.
Proof.
  destruct e as [name value files | result]; [|done].
  simpl. unfold Profile.handleChange_sync.
  destruct (String.eqb name "profile_picture"); [|done].
  destruct files as [[|file rest]|]; try done.
  destruct (negb (startsWith "image/" (Profile.type file))); [done|].
  by destruct (Profile.maxSize <? Profile.size file).
Qed.

Lemma run_keeps_original (es : list Profile.Event) (s : Profile.State) :
  Profile.originalProfile (Profile.run es s) = Profile.originalProfile s.
Proof.
  unfold Profile.run. revert s.
  induction es as [|e es IH]; intros s; simpl; [done|].
  rewrite IH. apply step_keeps_original.
Qed.

(** X20. Cancelling an edit gives back exactly what was loaded: after a
    profile has been loaded, whatever the user then changes in the form
    and whichever picture reads have come to their end, [handleCancel]
    leaves the profile, the preview and the copy kept for cancelling as
    they were right after the load, and closes the editor. A read that is
    still going on is not stopped by the cancel: when it ends, the preview
    shows the picture that was cancelled, while the profile is the loaded
    one and the editor stays closed. *)
Theorem cancel_restores_until_late_read (reply : Reply) (d : Json)
    (es : list Profile.Event) (late : Json) (s : Profile.State) :
  ImportedRepos.readable reply = Some d →
  let loaded := snd (Profile.fetchProfile reply s) in
  let cancelled := Profile.handleCancel
                     (Profile.run es (Profile.handleEdit loaded)) in
  let after := Profile.onloadend late cancelled in
  (Profile.profile cancelled = Profile.profile loaded ∧
   Profile.preview cancelled = Profile.preview loaded ∧
   Profile.originalProfile cancelled = Profile.originalProfile loaded ∧
   Profile.isEditing cancelled = false) ∧
  (Profile.profile after = Profile.profile loaded ∧
   Profile.preview after = late ∧
   Profile.originalProfile after = Profile.originalProfile loaded ∧
   Profile.isEditing after = false).
Proof.
  intros Hd loaded cancelled after.
  destruct (fetchProfile_outcome reply s) as [_ H]. fold loaded in H.
  rewrite Hd in H. destruct H as (Hp & Ho & Hv & _).
  pose proof (run_keeps_original es (Profile.handleEdit loaded)) as Hk.
  simpl in Hk. rewrite Ho in Hk.
  assert (Hc : Profile.profile cancelled = Profile.profile loaded ∧
               Profile.preview cancelled = Profile.preview loaded ∧
               Profile.originalProfile cancelled
                 = Profile.originalProfile loaded ∧
               Profile.isEditing cancelled = false).
  { subst cancelled. unfold Profile.handleCancel. rewrite Hk. simpl.
    split; [|split; [|split; [by rewrite Ho|done]]].
    - apply insert_id. rewrite Hp. unfold Profile.profileData.
      by simplify_map_eq.
    - rewrite Hv, Hp. unfold Profile.profileData.
      rewrite lookup_insert_ne by done. rewrite lookup_insert_ne by done.
      rewrite lookup_insert_ne by done. rewrite lookup_insert_eq. simpl.
      apply or_empty_settled. }
  split; [exact Hc|]. destruct Hc as (H1 & _ & H3 & H4).
  subst after. unfold Profile.onloadend. simpl. done.
Qed.

(** X18. A file chosen for the picture is taken only if its type starts
    with [image/] and its size is at most 5 * 1024 * 1024 bytes (a file of
    exactly that size is taken): then it becomes the picture to upload, the
    preview is the one read from it, and nothing is shown. Any other file
    leaves the profile and the preview untouched and shows one notice, for
    the type first and for the size otherwise. In no case is anything
    sent or the copy kept for cancelling changed. *)
Theorem picture_taken_only_if_image_within_size (value : string)
    (file : Profile.File) (rest : list Profile.File) (dataUrl : Json)
    (s : Profile.State) :
  let s' := Profile.handleChange "profile_picture" value (Some (file :: rest))
              dataUrl s in
  Profile.maxSize = 5242880 ∧
  sent (Profile.world s') = sent (Profile.world s) ∧
  Profile.originalProfile s' = Profile.originalProfile s ∧
  Profile.isEditing s' = Profile.isEditing s ∧
  if startsWith "image/" (Profile.type file)
     && (Profile.size file <=? Profile.maxSize)
  then
    Profile.profile s'
      = <["profile_picture" := Profile.file_json file]> (Profile.profile s) ∧
    Profile.preview s' = dataUrl ∧
    Profile.world s' = Profile.world s
  else
    Profile.profile s' = Profile.profile s ∧
    Profile.preview s' = Profile.preview s ∧
    toasts (Profile.world s')
      = (toasts (Profile.world s) ++
         [(ToastError,
           JStr (if startsWith "image/" (Profile.type file)
                 then "Image size should be less than 5MB"
                 else "Please select an image file"))])%list.
Proof.
  intros s'. subst s'. unfold Profile.handleChange.
  change (String.eqb "profile_picture" "profile_picture") with true. cbv iota.
  split; [reflexivity|].
  destruct (startsWith "image/" (Profile.type file)) eqn:Ht; simpl negb;
    cbv iota.
  - rewrite (Z.ltb_antisym (Profile.size file) Profile.maxSize).
    destruct (Profile.size file <=? Profile.maxSize) eqn:Hs; simpl;
      repeat split.
  - simpl. repeat split.
Qed.

(** A profile is loaded, edited in three steps and the edit cancelled. *)
Lemma cancel_restores_until_late_read_witness :
  ImportedRepos.readable (Replied (mkResponse 200 Sample.profile_body))
    = Some Sample.profile_body ∧
  Profile.profile
    (Profile.handleCancel
       (Profile.run Sample.profile_edits
          (Profile.handleEdit
             (snd (Profile.fetchProfile
                     (Replied (mkResponse 200 Sample.profile_body))
                     Sample.profile_page)))))
  = Profile.profile
      (snd (Profile.fetchProfile
              (Replied (mkResponse 200 Sample.profile_body))
              Sample.profile_page)).
Proof.
  split; [reflexivity|].
  pose proof (cancel_restores_until_late_read
                (Replied (mkResponse 200 Sample.profile_body))
                Sample.profile_body Sample.profile_edits JNull
                Sample.profile_page eq_refl) as P.
  cbv zeta in P. exact (proj1 (proj1 P)).
Defined.

(** The edits do change the form before they are cancelled. *)
Example edits_change_the_form :
  let edited :=
    Profile.run Sample.profile_edits
      (Profile.handleEdit
         (snd (Profile.fetchProfile
                 (Replied (mkResponse 200 Sample.profile_body))
                 Sample.profile_page))) in
  Profile.profile edited !! "first_name" = Some (JStr "Augusta") ∧
  Profile.preview edited = JStr "data:image/png;base64,AAAA".
Proof. split; reflexivity. Qed.

(** The picture is chosen and the edit cancelled before the read has come
    to its end: the preview ends as the cancelled picture, over a profile
    that holds none. *)
Example late_read_shows_cancelled_picture :
  let loaded := snd (Profile.fetchProfile
                       (Replied (mkResponse 200 Sample.profile_body))
                       Sample.profile_page) in
  let s' :=
    Profile.onloadend (JStr "data:image/png;base64,AAAA")
      (Profile.handleCancel
         (Profile.handleChange_sync "profile_picture" "me.png"
            (Some [Profile.mkFile "image/png" 2048])
            (Profile.handleEdit loaded))) in
  Profile.preview loaded = JStr EmptyString ∧
  Profile.preview s' = JStr "data:image/png;base64,AAAA" ∧
  Profile.profile s' !! "profile_picture" = Some JNull ∧
  Profile.isEditing s' = false.
Proof. repeat split. Qed.
